(** * siibra example notebooks: a model of the cells and of the calls they make

    The three notebooks under [examples/] are straight-line tutorial code
    around the [siibra] atlas client.  The notebooks' own code (the cells,
    [plot_roi], [plot_connectivity_profiles], [titleformat]) is embedded
    from the notebook sources.  The [siibra] calls they make are not part of
    the notebooks; where a property depends on what such a call does, the
    call is modelled from the specification and marked as such.

    Part I holds the definitions, Part II the theorems about them, Part III
    further properties of the notebooks' own code. *)

From Stdlib Require Import ZArith QArith List String Ascii Bool Lia Permutation Sorted.
From stdpp Require Import base option list strings gmap fin_maps.

Local Open Scope string_scope.
Local Open Scope list_scope.

(** * Part I: definitions *)

(** ** Python results: a value or a raised exception *)

Module Py.

Inductive exn : Type :=
| ValueError (msg : string)
| KeyError
| IndexError
| TypeError (msg : string).

Inductive res (A : Type) : Type :=
| Ok (a : A)
| Raise (e : exn).
Arguments Ok {A} a.
Arguments Raise {A} e.

Definition bind {A B} (m : res A) (k : A -> res B) : res B :=
  match m with
  | Ok a => k a
  | Raise e => Raise e
  end.

#[export] Instance res_ret : MRet res := fun A a => Ok a.
#[export] Instance res_bind : MBind res := fun A B k m => bind m k.

(** [[f(x) for x in l]] and [for x in l: f(x)] where [f] may raise: the
    elements are visited left to right and the first exception ends the
    iteration. *)
Fixpoint comprehension {A B} (f : A -> res B) (l : list A) : res (list B) :=
  match l with
  | [] => Ok []
  | x :: l' =>
      match f x with
      | Ok y =>
          match comprehension f l' with
          | Ok ys => Ok (y :: ys)
          | Raise e => Raise e
          end
      | Raise e => Raise e
      end
  end.

(** [l[i]] for a list and a non-negative index. *)
Definition list_getitem {A} (l : list A) (i : nat) : res A :=
  match l !! i with
  | Some x => Ok x
  | None => Raise IndexError
  end.

(** Code that also reads or writes objects on a heap of type [H]: the heap
    is threaded through, and an exception keeps the heap reached so far. *)
Definition hm (H A : Type) : Type := H -> res A * H.

Definition hret {H A} (a : A) : hm H A := fun h => (Ok a, h).

Definition hbind {H A B} (m : hm H A) (k : A -> hm H B) : hm H B :=
  fun h =>
    match m h with
    | (Ok a, h') => k a h'
    | (Raise e, h') => (Raise e, h')
    end.

Definition hlift {H A} (r : res A) : hm H A := fun h => (r, h).

Fixpoint hcomprehension {H A B} (f : A -> hm H B) (l : list A) : hm H (list B) :=
  match l with
  | [] => hret []
  | x :: l' =>
      hbind (f x) (fun y =>
      hbind (hcomprehension f l') (fun ys => hret (y :: ys)))
  end.

(** A computation that leaves every heap as it found it, whether it
    returns or raises. *)
Definition readonly {H A} (m : hm H A) : Prop := forall h, (m h).2 = h.

End Py.
Import Py.

(** ** BigBrain.ipynb *)

Module BigBrain.

(** The reference spaces the notebooks name. *)
Inductive space : Type :=
| BIG_BRAIN
| MNI152_2009C_NONL_ASYM.

Section Template.
Context {Template : Type}.

(** Whether a resolution requested for a space exceeds what the library
    considers feasible, the text of its refusal, and the download itself. *)
Variable exceeds_threshold : space -> Q -> bool.
Variable refusal : space -> Q -> string.
Variable fetch : space -> option Q -> Template.

(** Modelled from the spec: [get_template] of the siibra library, which is
    not part of the notebooks.  "Template retrieval, parameterized by target
    space and optional resolution, with a refusal policy when a requested
    resolution exceeds a feasibility threshold unless explicitly
    overridden"; the refusal is a value error. *)
Definition get_template (sp : space) (resolution : option Q) (force : bool)
    : res Template :=
  match resolution with
  | None => Ok (fetch sp None)
  | Some r =>
      if exceeds_threshold sp r && negb force
      then Raise (ValueError (refusal sp r))
      else Ok (fetch sp (Some r))
  end.

(** [print(a, b)]: one line, the arguments separated by a blank. *)
Definition print2 (a b : string) (stdout : list string) : list string :=
  stdout ++ [(a ++ " " ++ b)%string].

(** [try: body / except ValueError as e: print("This didn't work!",
    str(e))]: the value of the body is discarded, only a [ValueError] is
    caught, any other exception propagates. *)
Definition try_print (body : res Template) (stdout : list string)
    : res unit * list string :=
  match body with
  | Ok _ => (Ok tt, stdout)
  | Raise (ValueError msg) => (Ok tt, print2 "This didn't work!" msg stdout)
  | Raise e => (Raise e, stdout)
  end.

(** Cell 3: [siibra.spaces.BIG_BRAIN.get_template(resolution=20.)] inside
    [try/except ValueError]. *)
Definition cell_highres (stdout : list string) : res unit * list string :=
  try_print (get_template BIG_BRAIN (Some (20 # 1)) false) stdout.

End Template.

(** One call of nilearn's [plotting.view_img] with the keyword arguments the
    notebook passes. *)
Record view_img_call (Img : Type) : Type := ViewImg
  { vi_img : Img;
    vi_bg_img : Img;
    vi_title : string;
    vi_resampling_interpolation : string;
    vi_symmetric_cmap : bool;
    vi_cmap : string }.
Arguments ViewImg {Img}.
Arguments vi_img {Img}.
Arguments vi_bg_img {Img}.
Arguments vi_title {Img}.

(** [plot_roi = lambda img,title : plotting.view_img(img, bg_img=template,
    title=title, resampling_interpolation='nearest', symmetric_cmap=False,
    cmap='Paired')]; [template] is the notebook's global. *)
Definition plot_roi {Img} (template : Img) (img : Img) (title : string)
    : view_img_call Img :=
  ViewImg img template title "nearest" false "Paired".

End BigBrain.

(** ** Probabilistic_assignment.ipynb *)

Module Assignment.

Section Assign.
Context {Region Point Radius : Type}.

(** The regions whose probability map is non-zero around a point, with
    their probabilities, in the library's own order. *)
Variable candidates : BigBrain.space -> Point -> Radius -> list (Region * Q).

(** Modelled from the spec: the ranking inside [assign_regions] ("a ranked
    list of (region, probability) pairs"), as insertion into a list in
    descending order of probability; an entry stays in front of later
    entries of equal probability. *)
Fixpoint insert_ranked (x : Region * Q) (l : list (Region * Q))
    : list (Region * Q) :=
  match l with
  | [] => [x]
  | y :: l' =>
      if Qle_bool (snd y) (snd x) then x :: y :: l'
      else y :: insert_ranked x l'
  end.

(** Modelled from the spec: the ranked list of a point's candidates. *)
Definition rank (l : list (Region * Q)) : list (Region * Q) :=
  foldr insert_ranked [] l.

(** An entry ranks before another when its probability is not smaller. *)
Definition before (a b : Region * Q) : Prop := (snd b <= snd a)%Q.

(** Modelled from the spec: [atlas.assign_regions] of the siibra library,
    which is not part of the notebooks.  "Probabilistic coordinate-to-region
    assignment given a point and an uncertainty radius, returning a ranked
    list of (region, probability) pairs"; the notebook passes a list of
    points and indexes the result by point. *)
Definition assign_regions (sp : BigBrain.space) (xyz : list Point)
    (radius : Radius) : list (list (Region * Q)) :=
  map (fun p => rank (candidates sp p radius)) xyz.

(** [assignments[0][:3]]: the notebook fails with [IndexError] if there is
    no first point; the slice never fails. *)
Definition three_best (assignments : list (list (Region * Q)))
    : res (list (Region * Q)) :=
  first ← list_getitem assignments 0;
  mret (take 3 first).

(** [closest_region,_ = assignments[0][0]] *)
Definition closest_region (assignments : list (list (Region * Q)))
    : res Region :=
  first ← list_getitem assignments 0;
  top ← list_getitem first 0;
  mret (fst top).

End Assign.

Section Profiles.
Context {Region : Type} `{Countable Region}.
Context {V : Type}.
Variable zero : V.
Variable name : Region -> string.

(** [{region:prob for prob,region in p}] for a decoded profile [p], a list
    of [(strength, region)] pairs: entries are stored left to right, a
    later entry for the same key replaces the earlier one. *)
Definition dict_of_profile (p : list (V * Region)) : gmap Region V :=
  foldl (fun d (e : V * Region) => <[e.2 := e.1]> d) ∅ p.

(** [probs[r]] raises [KeyError] on a missing key. *)
Definition getitem (probs : gmap Region V) (r : Region) : res V :=
  match probs !! r with
  | Some v => Ok v
  | None => Raise KeyError
  end.

(** [r in probs] *)
Definition contains (probs : gmap Region V) (r : Region) : bool :=
  bool_decide (is_Some (probs !! r)).

(** [probs[r] if r in probs else 0] *)
Definition y_entry (probs : gmap Region V) (r : Region) : res V :=
  if contains probs r then getitem probs r else Ok zero.

(** One [ax1.plot(xticks, y, '.-', lw=1)] call. *)
Record line : Type := Line { line_x : list nat; line_y : list V }.

(** What the function has drawn on [ax1] when it returns [fig]. *)
Record figure : Type := Figure
  { fig_xticks : list nat;
    fig_xticklabels : list string;
    fig_lines : list line;
    fig_grid : bool }.

(** The body of [for p in profiles]. *)
Definition plot_profile (xticks : list nat) (target_regions : list Region)
    (p : list (V * Region)) : res line :=
  let probs := dict_of_profile p in
  y ← comprehension (y_entry probs) target_regions;
  mret (Line xticks y).

(** [def plot_connectivity_profiles(profiles,target_regions)]: the x ticks
    [range(N)] labelled with the names of the target regions, one line per
    profile, and the grid switched on. *)
Definition plot_connectivity_profiles (profiles : list (list (V * Region)))
    (target_regions : list Region) : res figure :=
  let N := length target_regions in
  let xticks := seq 0 N in
  let labels := map name target_regions in
  lines ← comprehension (plot_profile xticks target_regions) profiles;
  mret (Figure xticks labels lines true).

(** The values a figure shows, over all its lines. *)
Definition plotted_values (f : figure) : list V :=
  concat (map line_y (fig_lines f)).

End Profiles.
Arguments line : clear implicits.
Arguments figure : clear implicits.

Section ProfileObjects.
Context {Region Parcellation V : Type} `{Countable Region}.
Variable zero : V.
Variable name : Region -> string.

(** A [ConnectivityProfile] object as the notebook sees it. *)
Record profile_obj : Type := ProfileObj
  { src_name : string;
    src_info : string;
    column_names : list string;
    entries : list V }.

(** The value the library's decoding computes from a profile object and a
    parcellation. *)
Variable decoded : Parcellation -> profile_obj -> list (V * Region).

(** Reading through a reference to a profile object. *)
Definition deref (l : positive) : hm (gmap positive profile_obj) profile_obj :=
  fun h =>
    match h !! l with
    | Some o => (Ok o, h)
    | None => (Raise (TypeError "stale reference"), h)
    end.

(** [p.src_name] *)
Definition get_src_name (l : positive) : hm (gmap positive profile_obj) string :=
  hbind (deref l) (fun o => hret (src_name o)).

(** Modelled from the spec: [ConnectivityProfile.decode] of the siibra
    library, which is not part of the notebooks.  Profiles are "consumed
    read-only"; decoding "will convert the column names of the connectivity
    profile to explicit brain region objects", so it reads the object and
    returns a list of (strength, region) pairs. *)
Definition decode (l : positive) (parc : Parcellation)
    : hm (gmap positive profile_obj) (list (V * Region)) :=
  hbind (deref l) (fun o => hret (decoded parc o)).

(** Cell 6: [decoded_profiles = [p.decode(atlas.selected_parcellation) for p
    in profiles]; p = decoded_profiles[0]; target_regions = [region for
    strength,region in p[:20]]]. *)
Definition cell_decode (profiles : list positive) (parc : Parcellation)
    : hm (gmap positive profile_obj) (list (list (V * Region)) * list Region) :=
  hbind (hcomprehension (fun p => decode p parc) profiles) (fun decoded_profiles =>
  hbind (hlift (list_getitem decoded_profiles 0)) (fun p =>
  let target_regions := map snd (take 20 p) in
  hret (decoded_profiles, target_regions))).

(** Cell 8: [fig = plot_connectivity_profiles(decoded_profiles,
    target_regions); fig.legend([p.src_name for p in profiles], ...)]. *)
Definition cell_plot (profiles : list positive)
    (decoded_profiles : list (list (V * Region))) (target_regions : list Region)
    : hm (gmap positive profile_obj) (figure V * list string) :=
  hbind (hlift (plot_connectivity_profiles zero name decoded_profiles target_regions))
    (fun fig =>
  hbind (hcomprehension get_src_name profiles) (fun legend =>
  hret (fig, legend))).

(** Cells 6 and 8 in sequence. *)
Definition cells_profiles (profiles : list positive) (parc : Parcellation)
    : hm (gmap positive profile_obj) (figure V * list string) :=
  hbind (cell_decode profiles parc) (fun dt =>
  cell_plot profiles dt.1 dt.2).

End ProfileObjects.
Arguments profile_obj : clear implicits.

Section Targets.
Context {Region V : Type}.

(** Cell 6, after the decoding: [p = decoded_profiles[0]; target_regions =
    [region for strength,region in p[:20]]]. *)
Definition target_regions_of (decoded_profiles : list (list (V * Region)))
    : res (list Region) :=
  p ← list_getitem decoded_profiles 0;
  mret (map snd (take 20 p)).

End Targets.

End Assignment.

(** ** Walkthrough.ipynb *)

Module Walkthrough.

(** *** The token and cache-directory cells *)

(** What the two cells can touch: the process environment, the browser
    tabs opened, and the prompts shown to the user. *)
Record kernel : Type := Kernel
  { environ : gmap string string;
    browser : list string;
    prompts : list string }.

(** [environ] is the mapping [os.environ]: assigning to a key hands the
    key and the value to the platform first, and the platform may refuse
    them. *)
Section Environ.

(** [os.putenv] of the platform, together with the encoding of the key and
    of the value that [os.environ] does before it: it sets the variable of
    the process, or raises and sets nothing. *)
Variable putenv : string -> string -> res unit.

(** [environ[key] = value], as [os.environ.__setitem__] does it: the
    mapping is updated after [putenv] has returned, and not at all when
    [putenv] raises. *)
Definition environ_setitem (key value : string) (env : gmap string string)
    : res (gmap string string) :=
  match putenv key value with
  | Ok _ => Ok (<[key := value]> env)
  | Raise e => Raise e
  end.

(** Cell 2: [webbrowser.open(url); token = input("Enter your token here: ");
    environ['HBP_AUTH_TOKEN'] = token].  [typed] is what the user enters.
    The cell's result is the notebook variable [token], or the exception
    the assignment raises; the browser has been opened and the user has
    been prompted by then. *)
Definition cell_token (typed : string) (k : kernel) : res string * kernel :=
  let browser' :=
    browser k ++ ["https://nexus-iam.humanbrainproject.org/v0/oauth2/authorize"] in
  let prompts' := prompts k ++ ["Enter your token here: "] in
  let token := typed in
  match environ_setitem "HBP_AUTH_TOKEN" token (environ k) with
  | Ok env' => (Ok token, Kernel env' browser' prompts')
  | Raise e => (Raise e, Kernel (environ k) browser' prompts')
  end.

End Environ.

(** A string with a NUL character. *)
Definition has_nul (s : string) : bool :=
  existsb (fun c => Ascii.eqb c Ascii.zero) (list_ascii_of_string s).

(** A name no environment variable can have: the empty one, or one with an
    equals sign. *)
Definition illegal_name (key : string) : bool :=
  String.eqb key "" || existsb (fun c => Ascii.eqb c "="%char) (list_ascii_of_string key).

(** [putenv] on a POSIX system with UTF-8 as the encoding of the file
    system, where the strings here, of characters with codes below 256, all
    encode: a NUL character in the key or in the value, and an illegal
    name, are refused with a [ValueError]; everything else is set. *)
Definition posix_putenv (key value : string) : res unit :=
  if has_nul key || has_nul value then Raise (ValueError "embedded null byte")
  else if illegal_name key then Raise (ValueError "illegal environment variable name")
  else Ok tt.

(** Cell 3: both lines are comments ([#!mkdir -p /tmp/siibracache] and
    [#environ['SIIBRA_CACHEDIR'] = "/tmp/siibracache"]). *)
Definition cell_cachedir (k : kernel) : kernel := k.

(** *** Atlas selection and feature retrieval *)

(** The feature modalities the notebooks request. *)
Inductive modality : Type :=
| ReceptorDistribution
| GeneExpression
| ConnectivityMatrix
| ConnectivityProfile.

(** The three forms [atlas.select_region] is called with in the notebook:
    a text fragment (["v1"], ["v1 left"]), an entry of the atlas's
    [regionnames] glossary, and a label index of the parcellation map. *)
Inductive region_spec : Type :=
| ByText (fragment : string)
| ByIdentifier (key : string)
| ByLabel (index : Z).

Section Atlas.
Context {Region Parcellation Feature : Type}.

(** The regions of a parcellation, their names, glossary keys and label
    indices, and the library's fuzzy matching of a text fragment against a
    region name. *)
Variable regions_of : Parcellation -> list Region.
Variable region_name : Region -> string.
Variable region_key : Region -> string.
Variable labelindex : Region -> option Z.
Variable fuzzy : string -> string -> bool.

(** The features of a modality linked to a parcellation, and whether a
    feature of that modality matches a region. *)
Variable features_of : modality -> Parcellation -> list Feature.
Variable matches_region : modality -> Feature -> Region -> bool.

(** Modelled from the spec: the "current region/parcellation selection" of
    the siibra atlas object, which is not part of the notebooks. *)
Record atlas : Type := Atlas
  { selected_parcellation : Parcellation;
    selected_region : option Region }.

(** Modelled from the spec: [atlas.select_parcellation]; a newly selected
    parcellation has no region selected. *)
Definition select_parcellation (p : Parcellation) (a : atlas) : atlas :=
  Atlas p None.

(** Modelled from the spec: [atlas.clear_selection] drops the selected
    region and keeps the parcellation. *)
Definition clear_selection (a : atlas) : atlas :=
  Atlas (selected_parcellation a) None.

(** Modelled from the spec: whether a region answers a specification "by
    name, numeric label, or fuzzy text match". *)
Definition resolves (spec : region_spec) (r : Region) : bool :=
  match spec with
  | ByText fragment => fuzzy fragment (region_name r)
  | ByIdentifier key => String.eqb key (region_key r)
  | ByLabel index =>
      match labelindex r with
      | Some i => Z.eqb i index
      | None => false
      end
  end.

(** Modelled from the spec: [atlas.select_region] of the siibra library,
    which is not part of the notebooks.  "Atlas/parcellation/region
    selection and search (by name, numeric label, or fuzzy text match)":
    the specification is resolved against the regions of the selected
    parcellation; [None] when it resolves to no region. *)
Definition select_region (spec : region_spec) (a : atlas) : option atlas :=
  match List.find (resolves spec) (regions_of (selected_parcellation a)) with
  | Some r => Some (Atlas (selected_parcellation a) (Some r))
  | None => None
  end.

(** Modelled from the spec: [atlas.get_features] of the siibra library,
    which is not part of the notebooks.  "Feature retrieval by modality,
    filtered implicitly by current region/parcellation selection". *)
Definition get_features (m : modality) (a : atlas) : list Feature :=
  let linked := features_of m (selected_parcellation a) in
  match selected_region a with
  | None => linked
  | Some r => List.filter (fun f => matches_region m f r) linked
  end.

End Atlas.
Arguments atlas : clear implicits.

(** *** The connectivity-matrix cell *)

(** [text.replace('_',' ')] *)
Fixpoint replace_underscore (text : string) : string :=
  match text with
  | EmptyString => EmptyString
  | String c rest =>
      String (if Ascii.eqb c "_"%char then " "%char else c) (replace_underscore rest)
  end.

(** The line feed of ["\n".join]. *)
Definition newline : string := String (ascii_of_nat 10) EmptyString.

Section Matrices.
Context {V : Type}.

(** [textwrap.wrap(text, width)] of the Python standard library. *)
Variable wrap : string -> nat -> list string.

(** [titleformat = lambda text : "\n".join(wrap(text.replace('_',' '),20))] *)
Definition titleformat (text : string) : string :=
  String.concat newline (wrap (replace_underscore text) 20).

(** A [ConnectivityMatrix] object as the notebook sees it. *)
Record matrix_obj : Type := MatrixObj
  { matrix : list (list V);
    src_name : string;
    src_info : string }.

(** What [plt.subplots(1, ncols)] hands back as [axs] (matplotlib, default
    [squeeze=True]): a single Axes for one column, an array of Axes for
    more.  Axes are identified by their column. *)
Inductive axes : Type :=
| SingleAxes (column : nat)
| AxesArray (columns : list nat).

(** [f,axs = plt.subplots(1,ncols)]: matplotlib refuses zero columns. *)
Definition subplots (ncols : nat) : res axes :=
  match ncols with
  | 0 => Raise (ValueError "Number of columns must be a positive integer, not 0")
  | 1 => Ok (SingleAxes 0)
  | _ => Ok (AxesArray (seq 0 ncols))
  end.

(** [axs[i]]: a single Axes is not subscriptable. *)
Definition axs_getitem (axs : axes) (i : nat) : res nat :=
  match axs with
  | SingleAxes _ => Raise (TypeError "'AxesSubplot' object is not subscriptable")
  | AxesArray columns => list_getitem columns i
  end.

(** One pass of the loop body: [axs[i].imshow(feature.matrix, ...)] and
    [axs[i].set_title(titleformat(feature.src_name), size=8)]. *)
Record panel : Type := Panel
  { panel_axes : nat;
    panel_image : list (list V);
    panel_title : string }.

Definition deref (l : positive) : hm (gmap positive matrix_obj) matrix_obj :=
  fun h =>
    match h !! l with
    | Some o => (Ok o, h)
    | None => (Raise (TypeError "stale reference"), h)
    end.

Definition plot_matrix (axs : axes) (entry : nat * positive)
    : hm (gmap positive matrix_obj) panel :=
  hbind (hlift (axs_getitem axs entry.1)) (fun ax =>
  hbind (deref entry.2) (fun feature =>
  hret (Panel ax (matrix feature) (titleformat (src_name feature))))).

(** [enumerate(features)] *)
Definition enumerate {A} (l : list A) : list (nat * A) :=
  imap (fun i x => (i, x)) l.

(** The cell: [features = atlas.get_features(...)[:4]; f,axs =
    plt.subplots(1,len(features)); for i,feature in enumerate(features):
    ...].  [found] is what [get_features] returned. *)
Definition cell_matrices (found : list positive)
    : hm (gmap positive matrix_obj) (list panel) :=
  let features := take 4 found in
  hbind (hlift (subplots (length features))) (fun axs =>
  hcomprehension (plot_matrix axs) (enumerate features)).

(** The panel the loop body draws for entry [(i, feature)] once [axs[i]] is
    the axes of column [i]. *)
Definition panel_of (h : gmap positive matrix_obj) (entry : nat * positive)
    : panel :=
  match h !! entry.2 with
  | Some o => Panel entry.1 (matrix o) (titleformat (src_name o))
  | None => Panel entry.1 [] ""
  end.

(** The cell stops in the axes indexing: [plt.subplots] returned, and for
    one of the features in the loop [axs[i]] raised the exception the cell
    ends with. *)
Definition fails_at_indexing (found : list positive)
    (h : gmap positive matrix_obj) : Prop :=
  exists axs i e,
    subplots (length (take 4 found)) = Ok axs
    /\ i < length (take 4 found)
    /\ axs_getitem axs i = Raise e
    /\ (cell_matrices found h).1 = Raise e.

End Matrices.
Arguments matrix_obj : clear implicits.
Arguments panel : clear implicits.

End Walkthrough.

(** ** The notebooks as sequences of calls *)

Module Trace.

(** Whose code a step runs. *)
Inductive origin : Type :=
| Siibra
| Nilearn
| Matplotlib
| Numpy
| Python
| Notebook.

(** What a step does: the four steps of the notebooks (import and logging
    level, selection, data fetch, plotting), the notebook's own
    assignments and comprehensions, and console input and output. *)
Inductive kind : Type :=
| Import
| LogLevel
| Select
| Fetch
| Plot
| Compute
| IO.

#[export] Instance kind_eq_dec : EqDecision kind.
Proof. solve_decision. Defined.

(** A name a step reads, with the statement whose binding of the name the
    step reads in the notebook: the line of that statement in the notebook
    file and the kind of step it is.  Besides the variables of the
    notebook, [atlas.parcellation] and [atlas.region] name the selection
    the atlas holds (bound by [select_parcellation], and by [select_region]
    and [clear_selection]) and [siibra.logger] the logging level (bound by
    [setLevel]). *)
Record use : Type := Use
  { u_name : string;
    u_line : nat;
    u_kind : kind }.

(** One executed statement or call: its line in the notebook file, whose
    code it runs, what kind of step it is, the text it stands for, the
    names it reads and the names it binds. *)
Record event : Type := Ev
  { ev_line : nat;
    ev_origin : origin;
    ev_kind : kind;
    ev_call : string;
    ev_reads : list use;
    ev_writes : list string }.

(** A statement of a cell: a step, a [for] loop over a value the library
    returned (its body runs any number of times), or an [except] handler
    (it runs at most once). *)
Inductive stmt : Type :=
| Do (e : event)
| For (body : list event)
| Except (handler : list event).

(** The steps a run performs; [ns] gives, loop by loop, the number of
    iterations (for a handler: whether it runs). *)
Fixpoint unroll (p : list stmt) (ns : list nat) : list event :=
  match p with
  | [] => []
  | Do e :: p' => e :: unroll p' ns
  | For body :: p' => concat (repeat body (hd 0 ns)) ++ unroll p' (tl ns)
  | Except handler :: p' =>
      match hd 0 ns with
      | 0 => []
      | S _ => handler
      end ++ unroll p' (tl ns)
  end.

(** Every step a program can perform. *)
Definition steps_of (p : list stmt) : list event :=
  flat_map (fun s => match s with
                     | Do e => [e]
                     | For body => body
                     | Except handler => handler
                     end) p.

Definition kind_eqb (a b : kind) : bool :=
  match a, b with
  | Import, Import | LogLevel, LogLevel | Select, Select | Fetch, Fetch
  | Plot, Plot | Compute, Compute | IO, IO => true
  | _, _ => false
  end.

Definition origin_eqb (a b : origin) : bool :=
  match a, b with
  | Siibra, Siibra | Nilearn, Nilearn | Matplotlib, Matplotlib
  | Numpy, Numpy | Python, Python | Notebook, Notebook => true
  | _, _ => false
  end.

Definition mem (v : string) (l : list string) : bool :=
  existsb (String.eqb v) l.

(** *** The order of the steps, stated on a run *)

(** The last of the steps [pre] that binds the name [v]. *)
Fixpoint last_binder (v : string) (pre : list event) : option event :=
  match pre with
  | [] => None
  | e :: pre' =>
      match last_binder v pre' with
      | Some f => Some f
      | None => if mem v (ev_writes e) then Some e else None
      end
  end.

(** What a step reads is what the notebook says it reads: the last step
    before it that binds the name is the statement at the given line, of
    the given kind. *)
Definition reads_from (pre : list event) (u : use) : Prop :=
  exists f,
    last_binder (u_name u) pre = Some f
    /\ ev_line f = u_line u
    /\ ev_kind f = u_kind u.

(** For each step [e] of the run [t], with [pre] the steps before it: a
    selection comes after an import of siibra and after a setting of the
    logging level; and every name the step reads was last bound by the
    statement the notebook has for it.  For a fetch that reads the
    selection of the atlas this statement is a selection, for a plot that
    reads the result of a fetch it is that fetch. *)
Definition in_order (t : list event) : Prop :=
  forall pre e post, t = pre ++ e :: post ->
    (ev_kind e = Select ->
       (exists f, In f pre /\ ev_kind f = Import /\ ev_origin f = Siibra)
       /\ (exists f, In f pre /\ ev_kind f = LogLevel))
    /\ (forall u, In u (ev_reads e) -> reads_from pre u).

(** Every import of a library and every setting of the logging level comes
    before every selection. *)
Definition setup_first (t : list event) : Prop :=
  forall pre e post, t = pre ++ e :: post ->
    ev_kind e = Import \/ ev_kind e = LogLevel ->
    forall f, In f pre -> ev_kind f <> Select.

(** A selection or a fetch is a call into siibra. *)
Definition delegated (e : event) : Prop :=
  ev_kind e = Select \/ ev_kind e = Fetch -> ev_origin e = Siibra.

Definition delegatedb (e : event) : bool :=
  negb (kind_eqb (ev_kind e) Select || kind_eqb (ev_kind e) Fetch)
  || origin_eqb (ev_origin e) Siibra.

(** The lines of the statements that run the code of [o]; with [Notebook]
    for [o], the statements that are the notebook's own code, with [Python]
    those that call a built-in function or import from the standard
    library. *)
Definition lines_by (o : origin) (p : list stmt) : list nat :=
  map ev_line
    (List.filter (fun e => origin_eqb (ev_origin e) o) (steps_of p)).

(** The notebook's own code computes and binds, it neither selects nor
    fetches nor plots; and what computes is the notebook's own code. *)
Definition own_computes (e : event) : Prop :=
  ev_origin e = Notebook <-> ev_kind e = Compute.

Definition own_computesb (e : event) : bool :=
  Bool.eqb (origin_eqb (ev_origin e) Notebook) (kind_eqb (ev_kind e) Compute).

(** What is called of Python itself are imports from the standard library
    and console input and output. *)
Definition builtin_io (e : event) : Prop :=
  ev_origin e = Python -> ev_kind e = Import \/ ev_kind e = IO.

Definition builtin_iob (e : event) : bool :=
  negb (origin_eqb (ev_origin e) Python)
  || kind_eqb (ev_kind e) Import || kind_eqb (ev_kind e) IO.

(** The statements of kind [k] with what they read of statements of kind
    [k']: the line of the reading statement and the line of the statement
    read.  With [Fetch] and [Select], the fetches with the selections they
    depend on; with [Plot] and [Fetch], the plotting calls with the fetches
    whose result is passed to them. *)
Definition needs (k k' : kind) (p : list stmt) : list (nat * nat) :=
  flat_map (fun e =>
              if kind_eqb (ev_kind e) k
              then map (fun u => (ev_line e, u_line u))
                     (List.filter (fun u => kind_eqb (u_kind u) k') (ev_reads e))
              else [])
    (steps_of p).

(** The only step that reads [environ] or [token] is the assignment
    [environ['HBP_AUTH_TOKEN'] = token], which binds no name. *)
Definition stores_only (e : event) : Prop :=
  (exists u, In u (ev_reads e) /\ (u_name u = "environ" \/ u_name u = "token")) ->
  ev_call e = "environ['HBP_AUTH_TOKEN'] = token" /\ ev_writes e = [].

Definition stores_onlyb (e : event) : bool :=
  negb (existsb (fun u => String.eqb (u_name u) "environ"
                          || String.eqb (u_name u) "token") (ev_reads e))
  || (String.eqb (ev_call e) "environ['HBP_AUTH_TOKEN'] = token"
      && match ev_writes e with [] => true | _ => false end).

(** *** The fetches a plotting call displays *)

#[export] Instance origin_eq_dec : EqDecision origin.
Proof. solve_decision. Defined.

#[export] Instance use_eq_dec : EqDecision use.
Proof. solve_decision. Defined.

#[export] Instance event_eq_dec : EqDecision event.
Proof. solve_decision. Defined.

(** The statement [g] is the one the read [u] refers to. *)
Definition binds (u : use) (g : event) : bool :=
  Nat.eqb (ev_line g) (u_line u)
  && kind_eqb (ev_kind g) (u_kind u)
  && mem (u_name u) (ev_writes g).

(** The fetches whose result reaches the step [e] of the notebook [p]:
    the fetches [e] reads from, and those that reach a statement [e] reads
    from, as when the result of a fetch passes through a loop variable, a
    comprehension or the parameters of a function; [fuel] bounds the
    number of statements passed through. *)
Fixpoint reaching (p : list stmt) (fuel : nat) (e : event) : list event :=
  match fuel with
  | 0 => []
  | S fuel' =>
      flat_map (fun u =>
                  flat_map (fun g =>
                              (if kind_eqb (ev_kind g) Fetch then [g] else [])
                              ++ reaching p fuel' g)
                    (List.filter (binds u) (steps_of p)))
        (ev_reads e)
  end.

(** In the run [t] of [p] every plotting step comes after each fetch whose
    result reaches it. *)
Definition plots_after_fetch (p : list stmt) (t : list event) : Prop :=
  forall pre e post, t = pre ++ e :: post ->
    ev_kind e = Plot ->
    forall fuel g, In g (reaching p fuel e) -> ev_kind g = Fetch /\ In g pre.

(** The plotting statements of [p], each with the lines of the fetches
    whose result reaches it. *)
Definition displays (p : list stmt) : list (nat * list nat) :=
  map (fun e => (ev_line e,
                 remove_dups (map ev_line (reaching p (length (steps_of p)) e))))
    (List.filter (fun e => kind_eqb (ev_kind e) Plot) (steps_of p)).

(** No two statements of [p] are of the same kind, on the same line and
    bind the same name: a read refers to one statement. *)
Definition unambiguous (p : list stmt) : bool :=
  forallb (fun e =>
             forallb (fun g =>
                        negb (Nat.eqb (ev_line e) (ev_line g)
                              && kind_eqb (ev_kind e) (ev_kind g)
                              && existsb (fun v => mem v (ev_writes g)) (ev_writes e))
                        || bool_decide (e = g))
               (steps_of p))
    (steps_of p).

(** *** Checking the order of the steps along a run *)

(** What has happened so far: siibra imported, a logging level set, and
    for each name the line and the kind of the statement that last bound
    it. *)
Record seen : Type := Seen
  { imported : bool;
    levelled : bool;
    binders : gmap string (nat * kind) }.

#[export] Instance seen_eq_dec : EqDecision seen.
Proof. solve_decision. Defined.

Definition start : seen := Seen false false ∅.

Definition bind_all (e : event) (m : gmap string (nat * kind))
    : gmap string (nat * kind) :=
  foldr (fun v m' => <[v := (ev_line e, ev_kind e)]> m') m (ev_writes e).

Definition step (s : seen) (e : event) : seen :=
  Seen (imported s || (kind_eqb (ev_kind e) Import && origin_eqb (ev_origin e) Siibra))
       (levelled s || kind_eqb (ev_kind e) LogLevel)
       (bind_all e (binders s)).

Definition admissible (s : seen) (e : event) : bool :=
  (negb (kind_eqb (ev_kind e) Select) || (imported s && levelled s))
  && forallb (fun u => bool_decide (binders s !! u_name u = Some (u_line u, u_kind u)))
       (ev_reads e).

Fixpoint run (s : seen) (t : list event) : bool :=
  match t with
  | [] => true
  | e :: t' => admissible s e && run (step s e) t'
  end.

Definition exec (s : seen) (t : list event) : seen := foldl step s t.

(** The check of a program.  A loop body is checked in the state before
    the loop and in the state after one iteration, which further
    iterations must leave as it is; what follows a loop or a handler is
    checked both as if it had not run and as if it had. *)
Fixpoint check (s : seen) (p : list stmt) : bool :=
  match p with
  | [] => true
  | Do e :: p' => admissible s e && check (step s e) p'
  | For body :: p' =>
      run s body
      && run (exec s body) body
      && bool_decide (exec (exec s body) body = exec s body)
      && check s p'
      && check (exec s body) p'
  | Except handler :: p' =>
      run s handler && check s p' && check (exec s handler) p'
  end.

(** *** The three notebooks, statement by statement

    A step is a statement of a cell; its line is the line of the notebook
    file the statement starts on.  A call in an argument of a statement is
    a step of its own, before the statement, when it is a call into siibra
    that returns data or a call of a function the notebook defines; the
    value of such a call has the name of the call, ending in [()].  A call
    of [plot_connectivity_profiles] is followed by the statements of its
    body, whose locals have names of their own ([local]); a call
    of the lambdas [plot_roi] and [titleformat] is one step, that of the
    expression which is their body.  A comprehension is part of its
    statement. *)

(** BigBrain.ipynb *)
Definition bigbrain : list stmt :=
  [ (* cell 1 *)
    Do (Ev 22 Siibra Import "import siibra" [] ["siibra"]);
    Do (Ev 23 Nilearn Import "from nilearn import plotting,image" []
          ["plotting"; "image"]);
    Do (Ev 24 Siibra LogLevel "siibra.logger.setLevel('INFO')"
          [Use "siibra" 22 Import] ["siibra.logger"]);
    Do (Ev 25 Python IO "print(siibra.__version__)" [Use "siibra" 22 Import] []);
    (* cell 2 *)
    Do (Ev 43 Siibra Fetch "template = siibra.spaces.BIG_BRAIN.get_template()"
          [Use "siibra" 22 Import] ["template"]);
    (* cell 3 *)
    Do (Ev 60 Siibra Fetch "siibra.spaces.BIG_BRAIN.get_template(resolution=20.)"
          [Use "siibra" 22 Import] []);
    Except [Ev 62 Python IO "print(This didn't work!, str(e))" [] []];
    (* cell 4 *)
    Do (Ev 80 Siibra Select "atlas = siibra.atlases.MULTILEVEL_HUMAN_ATLAS"
          [Use "siibra" 22 Import] ["atlas"]);
    Do (Ev 81 Siibra Select "atlas.select_parcellation(BIGBRAIN_CORTICAL_LAYERS)"
          [Use "atlas" 80 Select; Use "siibra" 22 Import] ["atlas.parcellation"]);
    Do (Ev 82 Siibra Fetch "layers = atlas.get_map(siibra.spaces.BIG_BRAIN,resolution=320)"
          [Use "atlas" 80 Select; Use "atlas.parcellation" 81 Select;
           Use "siibra" 22 Import]
          ["layers"]);
    (* cell 5 *)
    Do (Ev 92 Notebook Compute "plot_roi = lambda img,title : ..." [] ["plot_roi"]);
    (* cell 6 *)
    Do (Ev 105 Siibra Fetch "layers.as_image()" [Use "layers" 82 Fetch]
          ["layers.as_image()"]);
    Do (Ev 105 Nilearn Plot "plot_roi(layers.as_image(), Layer masks) = plotting.view_img"
          [Use "plot_roi" 92 Compute; Use "plotting" 23 Import;
           Use "layers.as_image()" 105 Fetch; Use "template" 43 Fetch]
          []);
    (* cell 7 *)
    Do (Ev 123 Siibra Select "atlas.select_region(3)"
          [Use "atlas" 80 Select; Use "atlas.parcellation" 81 Select]
          ["atlas.region"]);
    Do (Ev 124 Siibra Fetch "layermask = atlas.build_mask(siibra.spaces.BIG_BRAIN)"
          [Use "atlas" 80 Select; Use "atlas.parcellation" 81 Select;
           Use "atlas.region" 123 Select; Use "siibra" 22 Import]
          ["layermask"]);
    Do (Ev 125 Nilearn Plot "plot_roi(layermask, Layer III) = plotting.view_img"
          [Use "plot_roi" 92 Compute; Use "plotting" 23 Import;
           Use "layermask" 124 Fetch; Use "template" 43 Fetch]
          []);
    (* cell 8 *)
    Do (Ev 141 Siibra Select
          "atlas.select_parcellation(JULICH_BRAIN_CYTOARCHITECTONIC_MAPS_2_5)"
          [Use "atlas" 80 Select; Use "siibra" 22 Import] ["atlas.parcellation"]);
    Do (Ev 142 Siibra Select "atlas.select_region(hOc3v)"
          [Use "atlas" 80 Select; Use "atlas.parcellation" 141 Select]
          ["atlas.region"]);
    Do (Ev 143 Siibra Fetch
          "regionmask = atlas.build_mask(siibra.spaces.BIG_BRAIN,resolution=320)"
          [Use "atlas" 80 Select; Use "atlas.parcellation" 141 Select;
           Use "atlas.region" 142 Select; Use "siibra" 22 Import]
          ["regionmask"]);
    Do (Ev 144 Nilearn Plot "plot_roi(regionmask, Area hOc3v) = plotting.view_img"
          [Use "plot_roi" 92 Compute; Use "plotting" 23 Import;
           Use "regionmask" 143 Fetch; Use "template" 43 Fetch]
          []) ].

(** A local variable of [plot_connectivity_profiles]. *)
Definition local (x : string) : string :=
  ("plot_connectivity_profiles." ++ x)%string.

(** Probabilistic_assignment.ipynb *)
Definition assignment : list stmt :=
  [ (* cell 1 *)
    Do (Ev 11 Siibra Import "import siibra" [] ["siibra"]);
    Do (Ev 12 Siibra LogLevel "siibra.logger.setLevel('INFO')"
          [Use "siibra" 11 Import] ["siibra.logger"]);
    (* cell 2 *)
    Do (Ev 30 Notebook Compute "xyz_mni = [...]" [] ["xyz_mni"]);
    Do (Ev 36 Notebook Compute "radius_mm = 5" [] ["radius_mm"]);
    (* cell 3 *)
    Do (Ev 52 Siibra Select "atlas = siibra.atlases.MULTILEVEL_HUMAN_ATLAS"
          [Use "siibra" 11 Import] ["atlas"]);
    Do (Ev 53 Siibra Select
          "atlas.select_parcellation(JULICH_BRAIN_CYTOARCHITECTONIC_MAPS_2_5)"
          [Use "atlas" 52 Select; Use "siibra" 11 Import] ["atlas.parcellation"]);
    Do (Ev 55 Siibra Fetch "assignments = atlas.assign_regions(space,xyz_mni,radius_mm)"
          [Use "atlas" 52 Select; Use "atlas.parcellation" 53 Select;
           Use "siibra" 11 Import; Use "xyz_mni" 30 Compute;
           Use "radius_mm" 36 Compute]
          ["assignments"]);
    (* cell 4 *)
    Do (Ev 72 Nilearn Import "from nilearn import plotting" [] ["plotting"]);
    For [ Ev 73 Notebook Compute "for region,prob in assignments[0][:3]"
            [Use "assignments" 55 Fetch] ["region"; "prob"];
          Ev 75 Siibra Fetch "region.get_regional_map(space)"
            [Use "region" 73 Compute; Use "siibra" 11 Import]
            ["region.get_regional_map()"];
          Ev 74 Nilearn Plot "plotting.plot_stat_map(..., cut_coords=xyz_mni[0], title=...)"
            [Use "plotting" 72 Import; Use "region.get_regional_map()" 75 Fetch;
             Use "xyz_mni" 30 Compute; Use "region" 73 Compute;
             Use "prob" 73 Compute]
            [] ];
    (* cell 5 *)
    Do (Ev 96 Notebook Compute "closest_region,_ = assignments[0][0]"
          [Use "assignments" 55 Fetch] ["closest_region"; "_"]);
    Do (Ev 97 Siibra Select "atlas.select_region(closest_region)"
          [Use "atlas" 52 Select; Use "atlas.parcellation" 53 Select;
           Use "closest_region" 96 Compute]
          ["atlas.region"]);
    Do (Ev 98 Siibra Fetch
          "profiles = atlas.get_features(siibra.modalities.ConnectivityProfile)"
          [Use "atlas" 52 Select; Use "atlas.parcellation" 53 Select;
           Use "atlas.region" 97 Select; Use "siibra" 11 Import]
          ["profiles"]);
    (* cell 6 *)
    Do (Ev 117 Siibra LogLevel "siibra.logger.setLevel(ERROR)"
          [Use "siibra" 11 Import] ["siibra.logger"]);
    Do (Ev 118 Siibra Fetch
          "decoded_profiles = [p.decode(atlas.selected_parcellation) for p in profiles]"
          [Use "profiles" 98 Fetch; Use "atlas" 52 Select;
           Use "atlas.parcellation" 53 Select; Use "siibra.logger" 117 LogLevel]
          ["decoded_profiles"]);
    Do (Ev 120 Siibra LogLevel "siibra.logger.setLevel(INFO)"
          [Use "siibra" 11 Import] ["siibra.logger"]);
    Do (Ev 121 Notebook Compute "p = decoded_profiles[0]"
          [Use "decoded_profiles" 118 Fetch] ["p"]);
    Do (Ev 122 Notebook Compute "target_regions = [region for strength,region in p[:20]]"
          [Use "p" 121 Compute] ["target_regions"]);
    Do (Ev 123 Python IO "target_regions" [Use "target_regions" 122 Compute] []);
    (* cell 7 *)
    Do (Ev 139 Matplotlib Import "import matplotlib.pyplot as plt" [] ["plt"]);
    Do (Ev 140 Matplotlib IO "%matplotlib inline" [] []);
    Do (Ev 144 Notebook Compute "def plot_connectivity_profiles(profiles,target_regions)"
          [] ["plot_connectivity_profiles"]);
    (* cell 8: the call, the body of the function, the assignment *)
    Do (Ev 171 Notebook Compute "plot_connectivity_profiles(decoded_profiles,target_regions)"
          [Use "plot_connectivity_profiles" 144 Compute;
           Use "decoded_profiles" 118 Fetch; Use "target_regions" 122 Compute]
          [local "profiles"; local "target_regions"]);
    Do (Ev 146 Notebook Compute "N = len(target_regions)"
          [Use (local "target_regions") 171 Compute] [local "N"]);
    Do (Ev 147 Notebook Compute "xticks = range(N)"
          [Use (local "N") 146 Compute] [local "xticks"]);
    Do (Ev 148 Matplotlib Plot "fig = plt.figure()" [Use "plt" 139 Import]
          [local "fig"]);
    Do (Ev 149 Matplotlib Plot "ax1 = fig.add_subplot(211)"
          [Use (local "fig") 148 Plot] [local "ax1"]);
    Do (Ev 150 Matplotlib Plot "ax1.set_xticks(xticks)"
          [Use (local "ax1") 149 Plot; Use (local "xticks") 147 Compute] []);
    Do (Ev 151 Matplotlib Plot "ax1.set_xticklabels([r.name for r in target_regions], ...)"
          [Use (local "ax1") 149 Plot; Use (local "target_regions") 171 Compute]
          []);
    For [ Ev 154 Notebook Compute "for p in profiles"
            [Use (local "profiles") 171 Compute] [local "p"];
          Ev 155 Notebook Compute "probs = {region:prob for prob,region in p}"
            [Use (local "p") 154 Compute] [local "probs"];
          Ev 156 Notebook Compute "y = [probs[r] if r in probs else 0 for r in target_regions]"
            [Use (local "probs") 155 Compute;
             Use (local "target_regions") 171 Compute]
            [local "y"];
          Ev 158 Notebook Compute "strengths = []" [] [local "strengths"];
          Ev 159 Matplotlib Plot "ax1.plot(xticks,y,'.-',lw=1)"
            [Use (local "ax1") 149 Plot; Use (local "xticks") 147 Compute;
             Use (local "y") 156 Compute]
            [] ];
    Do (Ev 161 Matplotlib Plot "ax1.grid(True)" [Use (local "ax1") 149 Plot] []);
    Do (Ev 162 Notebook Compute "return fig" [Use (local "fig") 148 Plot]
          ["plot_connectivity_profiles()"]);
    Do (Ev 171 Notebook Compute "fig = plot_connectivity_profiles(...)"
          [Use "plot_connectivity_profiles()" 162 Compute] ["fig"]);
    Do (Ev 172 Matplotlib Plot "fig.legend([p.src_name for p in profiles], ...)"
          [Use "fig" 171 Compute; Use "profiles" 98 Fetch] []);
    Do (Ev 175 Matplotlib Plot "fig.gca().set_title(f'... {atlas.selected_region}')"
          [Use "fig" 171 Compute; Use "atlas" 52 Select; Use "atlas.region" 97 Select]
          []);
    Do (Ev 176 Matplotlib Plot "plt.show()" [Use "plt" 139 Import] []) ].

(** Walkthrough.ipynb *)
Definition walkthrough : list stmt :=
  [ (* cell 1 *)
    Do (Ev 13 Nilearn Import "from nilearn import plotting,image" []
          ["plotting"; "image"]);
    Do (Ev 14 Numpy Import "import numpy as np" [] ["np"]);
    Do (Ev 15 Matplotlib Import "import matplotlib.pyplot as plt" [] ["plt"]);
    Do (Ev 16 Matplotlib IO "%matplotlib inline" [] []);
    (* cell 2 *)
    Do (Ev 49 Python Import "import webbrowser" [] ["webbrowser"]);
    Do (Ev 50 Python Import "from os import environ" [] ["environ"]);
    Do (Ev 51 Python IO "webbrowser.open(url)" [Use "webbrowser" 49 Import] []);
    Do (Ev 52 Python IO "token = input(Enter your token here: )" [] ["token"]);
    Do (Ev 53 Python IO "environ['HBP_AUTH_TOKEN'] = token"
          [Use "environ" 50 Import; Use "token" 52 IO] []);
    (* cell 3: comments only *)
    (* cell 4 *)
    Do (Ev 86 Siibra Import "import siibra" [] ["siibra"]);
    Do (Ev 87 Siibra LogLevel "siibra.logger.setLevel(INFO)"
          [Use "siibra" 86 Import] ["siibra.logger"]);
    Do (Ev 89 Siibra Select "atlas = siibra.atlases.MULTILEVEL_HUMAN_ATLAS"
          [Use "siibra" 86 Import] ["atlas"]);
    Do (Ev 90 Siibra Select
          "atlas.select_parcellation(JULICH_BRAIN_CYTOARCHITECTONIC_MAPS_2_5)"
          [Use "atlas" 89 Select; Use "siibra" 86 Import] ["atlas.parcellation"]);
    (* cell 5 *)
    Do (Ev 113 Siibra Select
          "atlas.select_parcellation(JULICH_BRAIN_CYTOARCHITECTONIC_MAPS_2_5)"
          [Use "atlas" 89 Select; Use "siibra" 86 Import] ["atlas.parcellation"]);
    Do (Ev 114 Siibra Fetch
          "icbm_mri = atlas.get_template(siibra.spaces.MNI152_2009C_NONL_ASYM)"
          [Use "atlas" 89 Select; Use "siibra" 86 Import] ["icbm_mri"]);
    Do (Ev 115 Siibra Fetch "icbm_map = atlas.get_map(siibra.spaces.MNI152_2009C_NONL_ASYM)"
          [Use "atlas" 89 Select; Use "atlas.parcellation" 113 Select;
           Use "siibra" 86 Import]
          ["icbm_map"]);
    For [ Ev 116 Notebook Compute "for m in icbm_map" [Use "icbm_map" 115 Fetch] ["m"];
          Ev 117 Nilearn Plot "plotting.plot_stat_map(m)"
            [Use "plotting" 13 Import; Use "m" 116 Compute] [] ];
    Do (Ev 120 Siibra Fetch
          "bigbrain_template = atlas.get_template(siibra.spaces.BIG_BRAIN,resolution=640)"
          [Use "atlas" 89 Select; Use "siibra" 86 Import] ["bigbrain_template"]);
    Do (Ev 121 Siibra Fetch
          "bigbrain_map = atlas.get_map(siibra.spaces.BIG_BRAIN,resolution=640)"
          [Use "atlas" 89 Select; Use "atlas.parcellation" 113 Select;
           Use "siibra" 86 Import]
          ["bigbrain_map"]);
    For [ Ev 122 Notebook Compute "for m in bigbrain_map" [Use "bigbrain_map" 121 Fetch]
            ["m"];
          Ev 123 Nilearn Plot "plotting.plot_stat_map(m,bg_img=bigbrain_template)"
            [Use "plotting" 13 Import; Use "m" 122 Compute;
             Use "bigbrain_template" 120 Fetch]
            [] ];
    Do (Ev 126 Siibra Select "atlas.select_parcellation(DESIKAN_KILLIANY_2006)"
          [Use "atlas" 89 Select; Use "siibra" 86 Import] ["atlas.parcellation"]);
    Do (Ev 127 Siibra Fetch "dk_map = atlas.get_map(siibra.spaces.MNI152_2009C_NONL_ASYM)"
          [Use "atlas" 89 Select; Use "atlas.parcellation" 126 Select;
           Use "siibra" 86 Import]
          ["dk_map"]);
    For [ Ev 128 Notebook Compute "for m in dk_map" [Use "dk_map" 127 Fetch] ["m"];
          Ev 129 Nilearn Plot "plotting.plot_stat_map(m,cmap=plt.cm.tab10)"
            [Use "plotting" 13 Import; Use "m" 128 Compute; Use "plt" 15 Import] [] ];
    (* cell 6 *)
    Do (Ev 147 Siibra Select
          "atlas.select_parcellation(JULICH_BRAIN_CYTOARCHITECTONIC_MAPS_2_5)"
          [Use "atlas" 89 Select; Use "siibra" 86 Import] ["atlas.parcellation"]);
    Do (Ev 148 Siibra Select "atlas.select_region(v1)"
          [Use "atlas" 89 Select; Use "atlas.parcellation" 147 Select]
          ["atlas.region"]);
    (* cell 7 *)
    Do (Ev 164 Siibra Select "atlas.select_region(v1 left)"
          [Use "atlas" 89 Select; Use "atlas.parcellation" 147 Select]
          ["atlas.region"]);
    (* cell 8 *)
    Do (Ev 180 Siibra Select
          "atlas.select_region(atlas.regionnames.AREA_HOC1_V1_17_CALCS_LEFT_HEMISPHERE)"
          [Use "atlas" 89 Select; Use "atlas.parcellation" 147 Select]
          ["atlas.region"]);
    (* cell 9 *)
    Do (Ev 196 Siibra Fetch "matches = atlas.find_regions('ventral',all_parcellations=True)"
          [Use "atlas" 89 Select] ["matches"]);
    For [ Ev 197 Notebook Compute "for region in matches" [Use "matches" 196 Fetch]
            ["region"];
          Ev 198 Python IO
            "print(...format(region.parcellation.name,region.name,region.labelindex))"
            [Use "region" 197 Compute] [] ];
    (* cell 10 *)
    Do (Ev 214 Siibra Select "atlas.select_region(112)"
          [Use "atlas" 89 Select; Use "atlas.parcellation" 147 Select]
          ["atlas.region"]);
    (* cell 11 *)
    Do (Ev 230 Siibra Select "atlas.select_region('fp2 right')"
          [Use "atlas" 89 Select; Use "atlas.parcellation" 147 Select]
          ["atlas.region"]);
    Do (Ev 231 Siibra Fetch "pmap = atlas.selected_region.get_regional_map(space)"
          [Use "atlas" 89 Select; Use "atlas.region" 230 Select; Use "siibra" 86 Import]
          ["pmap"]);
    Do (Ev 232 Nilearn Plot "plotting.plot_stat_map(pmap)"
          [Use "plotting" 13 Import; Use "pmap" 231 Fetch] []);
    (* cell 12 *)
    Do (Ev 248 Siibra Fetch "props = atlas.selected_region.spatialprops(space)"
          [Use "atlas" 89 Select; Use "atlas.region" 230 Select; Use "siibra" 86 Import]
          ["props"]);
    Do (Ev 249 Python IO "print(props)" [Use "props" 248 Fetch] []);
    (* cell 13 *)
    Do (Ev 282 Siibra Select "atlas.clear_selection()" [Use "atlas" 89 Select]
          ["atlas.region"]);
    Do (Ev 283 Siibra Fetch
          "features = atlas.get_features(siibra.modalities.ReceptorDistribution)"
          [Use "atlas" 89 Select; Use "atlas.parcellation" 147 Select;
           Use "atlas.region" 282 Select; Use "siibra" 86 Import]
          ["features"]);
    Do (Ev 285 Python IO "print(Receptor density features found for the following regions:)"
          [] []);
    Do (Ev 286 Python IO "print(', '.join({f.region for f in features}))"
          [Use "features" 283 Fetch] []);
    (* cell 14 *)
    Do (Ev 302 Siibra Select "atlas.select_region(V1)"
          [Use "atlas" 89 Select; Use "atlas.parcellation" 147 Select]
          ["atlas.region"]);
    Do (Ev 303 Siibra Fetch
          "features = atlas.get_features(siibra.modalities.ReceptorDistribution)"
          [Use "atlas" 89 Select; Use "atlas.parcellation" 147 Select;
           Use "atlas.region" 302 Select; Use "siibra" 86 Import]
          ["features"]);
    For [ Ev 305 Notebook Compute "for r in features" [Use "features" 303 Fetch] ["r"];
          Ev 306 Siibra Plot "fig = r.plot(r.region)" [Use "r" 305 Compute] ["fig"] ];
    (* cell 15 *)
    Do (Ev 328 Siibra Select "atlas.select_region(V1)"
          [Use "atlas" 89 Select; Use "atlas.parcellation" 147 Select]
          ["atlas.region"]);
    Do (Ev 329 Siibra Fetch
          "features = atlas.get_features(siibra.modalities.GeneExpression, gene=...)"
          [Use "atlas" 89 Select; Use "atlas.parcellation" 147 Select;
           Use "atlas.region" 328 Select; Use "siibra" 86 Import]
          ["features"]);
    Do (Ev 332 Python IO "print(features[0])" [Use "features" 329 Fetch] []);
    Do (Ev 335 Notebook Compute "all_coords = [tuple(g.location) for g in features]"
          [Use "features" 329 Fetch] ["all_coords"]);
    Do (Ev 336 Siibra Fetch "mask = atlas.build_mask(siibra.spaces.MNI152_2009C_NONL_ASYM)"
          [Use "atlas" 89 Select; Use "atlas.parcellation" 147 Select;
           Use "atlas.region" 328 Select; Use "siibra" 86 Import]
          ["mask"]);
    Do (Ev 337 Nilearn Plot "display = plotting.plot_roi(mask)"
          [Use "plotting" 13 Import; Use "mask" 336 Fetch] ["display"]);
    Do (Ev 338 Nilearn Plot "display.add_markers(all_coords,marker_size=5)"
          [Use "display" 337 Plot; Use "all_coords" 335 Compute] []);
    (* cell 16 *)
    Do (Ev 362 Siibra Fetch
          "features = atlas.get_features(siibra.modalities.ConnectivityMatrix)[:4]"
          [Use "atlas" 89 Select; Use "atlas.parcellation" 147 Select;
           Use "atlas.region" 328 Select; Use "siibra" 86 Import]
          ["features"]);
    Do (Ev 365 Python Import "from textwrap import wrap" [] ["wrap"]);
    Do (Ev 366 Notebook Compute "titleformat = lambda text : ..." [] ["titleformat"]);
    Do (Ev 369 Matplotlib Plot "f,axs = plt.subplots(1,len(features))"
          [Use "plt" 15 Import; Use "features" 362 Fetch] ["f"; "axs"]);
    For [ Ev 370 Notebook Compute "for i,feature in enumerate(features)"
            [Use "features" 362 Fetch] ["i"; "feature"];
          Ev 371 Matplotlib Plot "axs[i].imshow(feature.matrix,cmap=plt.cm.viridis)"
            [Use "axs" 369 Plot; Use "i" 370 Compute; Use "feature" 370 Compute;
             Use "plt" 15 Import]
            [];
          Ev 372 Notebook Compute "titleformat(feature.src_name)"
            [Use "titleformat" 366 Compute; Use "wrap" 365 Import;
             Use "feature" 370 Compute]
            ["titleformat()"];
          Ev 372 Matplotlib Plot "axs[i].set_title(titleformat(feature.src_name),size=8)"
            [Use "axs" 369 Plot; Use "i" 370 Compute;
             Use "titleformat()" 372 Compute]
            [] ];
    Do (Ev 373 Matplotlib Plot "f.show()" [Use "f" 369 Plot] []) ].

Definition notebooks : list (list stmt) := [bigbrain; assignment; walkthrough].

End Trace.

(** * Part II: theorems *)

(** ** Results and comprehensions *)

Section PyFacts.
Context {A B : Type}.

Lemma comprehension_total (f : A -> res B) (g : A -> B) (l : list A) :
  (forall x, x ∈ l -> f x = Ok (g x)) -> comprehension f l = Ok (map g l).
Proof.
  induction l as [|x l IH]; intros Hf; simpl; [done|].
  rewrite (Hf x) by left.
  rewrite IH; [done|]. intros y Hy. apply Hf. by right.
Qed.

Lemma list_getitem_lookup (l : list A) (i : nat) (x : A) :
  l !! i = Some x -> list_getitem l i = Ok x.
Proof. intros E. unfold list_getitem. by rewrite E. Qed.

End PyFacts.

(** ** [plot_connectivity_profiles] *)

Section ProfileFacts.
Import Assignment.
Context {Region : Type} `{Countable Region} {V : Type}.
Variable zero : V.
Variable name : Region -> string.

Lemma dict_of_profile_snoc (p : list (V * Region)) (s : V) (r : Region) :
  dict_of_profile (p ++ [(s, r)]) = <[r := s]> (dict_of_profile p).
Proof. unfold dict_of_profile. by rewrite foldl_app. Qed.

Lemma dict_of_profile_absent (p : list (V * Region)) (r : Region) :
  r ∉ p.*2 -> dict_of_profile p !! r = None.
Proof.
  induction p as [|[s r'] p IH] using rev_ind; intros Hr.
  - apply lookup_empty.
  - rewrite fmap_app in Hr. simpl in Hr.
    apply not_elem_of_app in Hr as [Hp Hr'].
    rewrite dict_of_profile_snoc.
    rewrite lookup_insert_ne; [by apply IH|].
    intros ->. apply Hr'. left.
Qed.

Lemma dict_of_profile_last (l1 l2 : list (V * Region)) (s : V) (r : Region) :
  r ∉ l2.*2 -> dict_of_profile (l1 ++ (s, r) :: l2) !! r = Some s.
Proof.
  induction l2 as [|[s' r'] l2 IH] using rev_ind; intros Hr.
  - rewrite dict_of_profile_snoc. apply lookup_insert_eq.
  - rewrite fmap_app in Hr. simpl in Hr.
    apply not_elem_of_app in Hr as [Hl2 Hr'].
    rewrite app_comm_cons, app_assoc, dict_of_profile_snoc.
    rewrite lookup_insert_ne; [by apply IH|].
    intros ->. apply Hr'. left.
Qed.

(** Every region of a profile has a last entry. *)
Lemma last_entry (p : list (V * Region)) (r : Region) :
  r ∈ p.*2 ->
  exists l1 s l2, p = l1 ++ (s, r) :: l2 /\ r ∉ l2.*2.
Proof.
  induction p as [|[s' r'] p IH]; intros Hr; [by apply elem_of_nil in Hr|].
  destruct (decide (r ∈ p.*2)) as [Hin|Hout].
  - destruct (IH Hin) as (l1 & s & l2 & -> & Hl2).
    by exists ((s', r') :: l1), s, l2.
  - simpl in Hr. apply elem_of_cons in Hr as [->|Hr]; [|done].
    by exists [], s', p.
Qed.

Lemma dict_of_profile_values (p : list (V * Region)) (r : Region) (v : V) :
  dict_of_profile p !! r = Some v -> v ∈ p.*1.
Proof.
  intros Hv.
  destruct (decide (r ∈ p.*2)) as [Hin|Hout].
  - destruct (last_entry p r Hin) as (l1 & s & l2 & -> & Hl2).
    rewrite dict_of_profile_last in Hv by done. injection Hv as ->.
    rewrite fmap_app. simpl.
    apply elem_of_app. right. left.
  - by rewrite dict_of_profile_absent in Hv.
Qed.

(** The guarded lookup never raises. *)
Lemma y_entry_total (probs : gmap Region V) (r : Region) :
  y_entry zero probs r = Ok (default zero (probs !! r)).
Proof.
  unfold y_entry, contains, getitem.
  case_bool_decide as Hin.
  - destruct Hin as [v ->]. done.
  - destruct (probs !! r) as [v|]; [|done].
    exfalso. apply Hin. by exists v.
Qed.

Lemma plot_profile_total (xticks : list nat) (targets : list Region)
    (p : list (V * Region)) :
  plot_profile zero xticks targets p
  = Ok (Line xticks (map (fun r => default zero (dict_of_profile p !! r)) targets)).
Proof.
  unfold plot_profile.
  rewrite (comprehension_total _ (fun r => default zero (dict_of_profile p !! r))); [done|].
  intros r _. apply y_entry_total.
Qed.

Lemma plot_connectivity_profiles_total (profiles : list (list (V * Region)))
    (targets : list Region) :
  plot_connectivity_profiles zero name profiles targets
  = Ok (Figure (seq 0 (length targets)) (map name targets)
          (map (fun p => Line (seq 0 (length targets))
                            (map (fun r => default zero (dict_of_profile p !! r)) targets))
               profiles)
          true).
Proof.
  unfold plot_connectivity_profiles.
  rewrite (comprehension_total _
    (fun p => Line (seq 0 (length targets))
                   (map (fun r => default zero (dict_of_profile p !! r)) targets))); [done|].
  intros p _. apply plot_profile_total.
Qed.

(** C9: for every list of decoded profiles and every list of target
    regions, [plot_connectivity_profiles] returns a figure (the lookup never
    raises) with one line per profile over the x ticks [0 .. N-1]; the
    value plotted for a target region is 0 when the region has no entry in
    the profile, and otherwise the strength of the region's last entry. *)
Theorem plot_connectivity_profiles_lookup (profiles : list (list (V * Region)))
    (targets : list Region) :
  exists fig,
    plot_connectivity_profiles zero name profiles targets = Ok fig
    /\ length (fig_lines fig) = length profiles
    /\ forall i p, profiles !! i = Some p ->
        exists ln,
          fig_lines fig !! i = Some ln
          /\ line_x ln = seq 0 (length targets)
          /\ length (line_y ln) = length targets
          /\ forall j r, targets !! j = Some r ->
              exists v,
                line_y ln !! j = Some v
                /\ (((r ∉ p.*2) /\ v = zero)
                    \/ (exists l1 s l2,
                          p = l1 ++ (s, r) :: l2 /\ (r ∉ l2.*2) /\ v = s)).
Proof.
  eexists. split; [apply plot_connectivity_profiles_total|]. simpl.
  split; [by rewrite length_map|].
  intros i p Hp. eexists. split.
  { rewrite list_lookup_fmap, Hp. reflexivity. }
  simpl. split; [done|]. split; [by rewrite length_map|].
  intros j r Hr. eexists. split.
  { rewrite list_lookup_fmap, Hr. reflexivity. }
  destruct (decide (r ∈ p.*2)) as [Hin|Hout].
  - right. destruct (last_entry p r Hin) as (l1 & s & l2 & -> & Hl2).
    exists l1, s, l2. split; [done|]. split; [done|].
    by rewrite dict_of_profile_last.
  - left. split; [done|]. by rewrite dict_of_profile_absent.
Qed.

(** What a line shows for a target region: the notebook's own 0 for a
    region the profile does not have, and otherwise the strength the
    profile has for that region, in its last entry for it. *)
Lemma plotted_values_exact (profiles : list (list (V * Region)))
    (targets : list Region) :
  exists fig,
    plot_connectivity_profiles zero name profiles targets = Ok fig
    /\ forall i p, profiles !! i = Some p ->
        exists ln,
          fig_lines fig !! i = Some ln
          /\ forall j r, targets !! j = Some r ->
              exists v,
                line_y ln !! j = Some v
                /\ (((r ∉ p.*2) /\ v = zero)
                    \/ (exists l1 s l2,
                          p = l1 ++ (s, r) :: l2 /\ (r ∉ l2.*2) /\ v = s)).
Proof.
  eexists. split; [apply plot_connectivity_profiles_total|]. simpl.
  intros i p Hp. eexists. split.
  { rewrite list_lookup_fmap, Hp. reflexivity. }
  simpl. intros j r Hr. eexists. split.
  { rewrite list_lookup_fmap, Hr. reflexivity. }
  destruct (decide (r ∈ p.*2)) as [Hin|Hout].
  - right. destruct (last_entry p r Hin) as (l1 & s & l2 & -> & Hl2).
    exists l1, s, l2. split; [done|]. split; [done|].
    by rewrite dict_of_profile_last.
  - left. split; [done|]. by rewrite dict_of_profile_absent.
Qed.

End ProfileFacts.

(** ** Code that only reads the heap *)

Section HeapFacts.
Context {H A B : Type}.

Lemma hcomprehension_total (f : A -> hm H B) (g : A -> B) (l : list A) (h : H) :
  (forall x, x ∈ l -> f x h = (Ok (g x), h)) ->
  hcomprehension f l h = (Ok (map g l), h).
Proof.
  induction l as [|x l IH]; intros Hf; simpl; [done|].
  unfold hbind at 1. rewrite (Hf x) by left.
  unfold hbind at 1. rewrite IH; [done|].
  intros y Hy. apply Hf. by right.
Qed.

End HeapFacts.

(** ** The connectivity-matrix cell *)

Section MatrixFacts.
Import Walkthrough.
Context {V : Type}.
Variable wrap : string -> nat -> list string.

Lemma subplots_array (n : nat) :
  2 <= n -> subplots n = Ok (AxesArray (seq 0 n)).
Proof. intros Hn. destruct n as [|[|n]]; [lia|lia|done]. Qed.

Lemma axs_getitem_array (n i : nat) :
  i < n -> axs_getitem (AxesArray (seq 0 n)) i = Ok i.
Proof.
  intros Hi. simpl. apply list_getitem_lookup.
  by rewrite lookup_seq_lt.
Qed.

Lemma plot_matrix_array (n : nat) (h : gmap positive (matrix_obj V))
    (entry : nat * positive) :
  entry.1 < n -> is_Some (h !! entry.2) ->
  plot_matrix wrap (AxesArray (seq 0 n)) entry h = (Ok (panel_of wrap h entry), h).
Proof.
  intros Hi [o Ho]. unfold plot_matrix, panel_of, hbind, hlift, deref, hret.
  rewrite axs_getitem_array by done. by rewrite Ho.
Qed.

Lemma cell_matrices_array (found : list positive) (h : gmap positive (matrix_obj V)) :
  Forall (fun l => is_Some (h !! l)) found ->
  2 <= length found ->
  cell_matrices wrap found h
  = (Ok (map (panel_of wrap h) (enumerate (take 4 found))), h).
Proof.
  intros Hh Hlen. unfold cell_matrices, hbind at 1, hlift.
  rewrite subplots_array by (rewrite length_take; lia).
  apply hcomprehension_total. intros [i l] Hil.
  apply elem_of_lookup_imap in Hil as (i' & l' & [= -> ->] & Hl).
  apply plot_matrix_array; simpl.
  - by apply lookup_lt_Some in Hl.
  - apply lookup_take_Some in Hl as [Hl _].
    by apply (Forall_lookup_1 _ _ _ _ Hh) in Hl.
Qed.

(** C10, as the cell behaves: it plots the first four features at most.
    For two or more features [plt.subplots] returns an array with one axes
    per plotted matrix, [axs[i]] is in bounds for each of them, and the cell
    draws matrix [i] on axes [i] and leaves the features as they were.  For
    exactly one feature [plt.subplots] returns a single axes and the cell
    fails at [axs[0]].  For no feature [plt.subplots] itself refuses, and
    the loop body, with it the axes indexing, is never run. *)
Theorem cell_matrices_axes (found : list positive) (h : gmap positive (matrix_obj V)) :
  Forall (fun l => is_Some (h !! l)) found ->
  length (take 4 found) <= 4
  /\ (2 <= length found ->
      exists axs panels,
        subplots (length (take 4 found)) = Ok axs
        /\ (forall i, i < length (take 4 found) -> axs_getitem axs i = Ok i)
        /\ cell_matrices wrap found h = (Ok panels, h)
        /\ length panels = length (take 4 found)
        /\ forall i l o, take 4 found !! i = Some l -> h !! l = Some o ->
            panels !! i = Some (Panel i (matrix o) (titleformat wrap (src_name o))))
  /\ (length found = 1 -> fails_at_indexing wrap found h)
  /\ (length found = 0 ->
      exists e, subplots (length (take 4 found)) = Raise e
                /\ (cell_matrices wrap found h).1 = Raise e
                /\ ~ fails_at_indexing wrap found h).
Proof.
  intros Hh. split; [rewrite length_take; lia|]. split; [|split].
  - intros Hlen.
    exists (AxesArray (seq 0 (length (take 4 found)))),
           (map (panel_of wrap h) (enumerate (take 4 found))).
    assert (2 <= length (take 4 found)) as Hn by (rewrite length_take; lia).
    split; [by apply subplots_array|].
    split; [intros i Hi; by apply axs_getitem_array|].
    split; [by apply cell_matrices_array|].
    split; [unfold enumerate; by rewrite length_map, length_imap|].
    intros i l o Hl Ho. unfold enumerate.
    rewrite list_lookup_fmap, list_lookup_imap, Hl. simpl.
    unfold panel_of. simpl. by rewrite Ho.
  - intros Hlen. destruct found as [|l [|l' found]]; try discriminate.
    apply Forall_cons in Hh as [[o Ho] _].
    exists (SingleAxes 0), 0, (TypeError "'AxesSubplot' object is not subscriptable").
    split; [done|]. split; [simpl; lia|]. split; done.
  - intros Hlen. destruct found; [|discriminate].
    eexists. repeat split.
    intros (axs & i & e & _ & Hi & _). simpl in Hi. lia.
Qed.

End MatrixFacts.

(** Two stored matrices and the cell run on them. *)
Lemma cell_matrices_axes_two :
  let h : gmap positive (Walkthrough.matrix_obj Z) :=
    <[1%positive := Walkthrough.MatrixObj [[1%Z]] "a_b" ""]>
      (<[2%positive := Walkthrough.MatrixObj [[2%Z]] "c" ""]> ∅) in
  Forall (fun l => is_Some (h !! l)) [1%positive; 2%positive]
  /\ 2 <= length [1%positive; 2%positive]
  /\ exists axs panels,
       Walkthrough.subplots (length (take 4 [1%positive; 2%positive])) = Ok axs
       /\ Walkthrough.cell_matrices (fun s _ => [s]) [1%positive; 2%positive] h
          = (Ok panels, h)
       /\ length panels = 2.
Proof.
  intros h.
  assert (Forall (fun l => is_Some (h !! l)) [1%positive; 2%positive]) as Hh.
  { repeat constructor; by eexists. }
  split; [exact Hh|]. split; [simpl; lia|].
  destruct (cell_matrices_axes (fun s _ => [s]) [1%positive; 2%positive] h Hh)
    as (_ & Htwo & _).
  destruct Htwo as (axs & panels & Hs & _ & Hc & Hl & _); [simpl; lia|].
  exists axs, panels. done.
Defined.

(** C10 as stated fails for an empty list: with no feature found the cell
    does not stop in the axes indexing, since no [axs[i]] is evaluated. *)
Lemma cell_matrices_empty_not_indexing :
  ~ Walkthrough.fails_at_indexing (V := Z) (fun s _ => [s]) [] ∅.
Proof.
  intros (axs & i & e & _ & Hi & _). simpl in Hi. lia.
Qed.

(** ** The order of the steps in the notebooks *)

Section TraceFacts.
Import Trace.

Lemma mem_In (v : string) (l : list string) : mem v l = true <-> In v l.
Proof.
  unfold mem. rewrite existsb_exists. split.
  - intros (x & Hx & E). apply String.eqb_eq in E. by subst.
  - intros Hv. exists v. split; [done|]. apply String.eqb_refl.
Qed.

Lemma kind_eqb_eq (a b : kind) : kind_eqb a b = true <-> a = b.
Proof. destruct a, b; simpl; split; congruence. Qed.

Lemma origin_eqb_eq (a b : origin) : origin_eqb a b = true <-> a = b.
Proof. destruct a, b; simpl; split; congruence. Qed.

Lemma exec_app (s : seen) (t1 t2 : list event) :
  exec s (t1 ++ t2) = exec (exec s t1) t2.
Proof. apply foldl_app. Qed.

Lemma run_app (t1 t2 : list event) (s : seen) :
  run s (t1 ++ t2) = run s t1 && run (exec s t1) t2.
Proof.
  revert s. induction t1 as [|e t1 IH]; intros s; simpl; [done|].
  by rewrite IH, andb_assoc.
Qed.

(** A loop body that leaves the state as it is can run any number of
    times. *)
Lemma run_loop (body : list event) (s : seen) (n : nat) :
  run s body = true -> exec s body = s ->
  run s (concat (repeat body n)) = true /\ exec s (concat (repeat body n)) = s.
Proof.
  intros Hr He. induction n as [|n [IHr IHe]]; simpl; [done|].
  rewrite run_app, exec_app, He, Hr. done.
Qed.

(** The check of a program covers each of its runs. *)
Lemma check_sound (p : list stmt) (s : seen) (ns : list nat) :
  check s p = true -> run s (unroll p ns) = true.
Proof.
  revert s ns. induction p as [|[e|body|handler] p IH]; intros s ns; simpl; [done|..].
  - rewrite !andb_true_iff. intros [Ha Hc]. auto.
  - rewrite !andb_true_iff. intros [[[[Hb Hb'] Hfix] Hc] Hc'].
    apply bool_decide_eq_true in Hfix.
    destruct (hd 0 ns) as [|n]; simpl; [by apply IH|].
    destruct (run_loop body (exec s body) n Hb' Hfix) as [Hr He].
    rewrite <- app_assoc, !run_app, Hb, Hr, He. simpl. by apply IH.
  - rewrite !andb_true_iff. intros [[Hb Hc] Hc'].
    destruct (hd 0 ns); simpl; [by apply IH|].
    rewrite run_app, Hb. simpl. by apply IH.
Qed.

Lemma unroll_steps (p : list stmt) (ns : list nat) (e : event) :
  In e (unroll p ns) -> In e (steps_of p).
Proof.
  revert ns. induction p as [|[e'|body|handler] p IH]; intros ns; simpl; [done|..].
  - intros [->|He]; [by left|right; eauto].
  - rewrite !in_app_iff. intros [He|He]; [left|right; eauto].
    apply in_concat in He as (b & Hb & He).
    apply repeat_spec in Hb. by subst.
  - rewrite !in_app_iff. intros [He|He]; [left|right; eauto].
    by destruct (hd 0 ns).
Qed.

Lemma bind_all_lookup (e : event) (m : gmap string (nat * kind)) (v : string) :
  bind_all e m !! v
  = if mem v (ev_writes e) then Some (ev_line e, ev_kind e) else m !! v.
Proof.
  unfold bind_all. induction (ev_writes e) as [|w ws IH]; simpl; [done|].
  destruct (String.eqb v w) eqn:E; simpl.
  - apply String.eqb_eq in E as ->. by rewrite lookup_insert_eq.
  - apply String.eqb_neq in E. by rewrite lookup_insert_ne.
Qed.

(** The state holds, for each name, the last step that bound it. *)
Lemma exec_binders (pre : list event) (s : seen) (v : string) :
  binders (exec s pre) !! v
  = match last_binder v pre with
    | Some f => Some (ev_line f, ev_kind f)
    | None => binders s !! v
    end.
Proof.
  revert s. induction pre as [|e pre IH]; intros s; simpl; [done|].
  rewrite IH. destruct (last_binder v pre); [done|].
  simpl. rewrite bind_all_lookup. by destruct (mem v (ev_writes e)).
Qed.

Lemma exec_imported (pre : list event) (s : seen) :
  imported (exec s pre) = true ->
  imported s = true
  \/ exists f, In f pre /\ ev_kind f = Import /\ ev_origin f = Siibra.
Proof.
  revert s. induction pre as [|e pre IH]; intros s; simpl; [by left|].
  intros [Hs|(f & Hf & Hk)]%IH.
  - simpl in Hs. apply orb_true_iff in Hs as [Hs|[Hk Ho]%andb_true_iff]; [by left|].
    right. exists e. split; [by left|].
    split; [by apply kind_eqb_eq|by apply origin_eqb_eq].
  - right. exists f. split; [by right|done].
Qed.

Lemma exec_levelled (pre : list event) (s : seen) :
  levelled (exec s pre) = true ->
  levelled s = true \/ exists f, In f pre /\ ev_kind f = LogLevel.
Proof.
  revert s. induction pre as [|e pre IH]; intros s; simpl; [by left|].
  intros [Hs|(f & Hf & Hk)]%IH.
  - simpl in Hs. apply orb_true_iff in Hs as [Hs|Hk]; [by left|].
    right. exists e. split; [by left|]. by apply kind_eqb_eq.
  - right. exists f. split; [by right|done].
Qed.

(** The last binder of a name is a step of the run that binds the name. *)
Lemma last_binder_split (v : string) (pre : list event) (f : event) :
  last_binder v pre = Some f ->
  In v (ev_writes f) /\ exists pre1 post1, pre = pre1 ++ f :: post1.
Proof.
  induction pre as [|e pre IH]; simpl; [done|].
  destruct (last_binder v pre) as [f'|].
  - intros [= ->]. destruct IH as (Hw & pre1 & post1 & ->); [done|].
    split; [done|]. by exists (e :: pre1), post1.
  - destruct (mem v (ev_writes e)) eqn:E; [|done]. intros [= ->].
    split; [by apply mem_In|]. by exists [], pre.
Qed.

(** A run the check accepts is in order. *)
Lemma run_in_order (t : list event) : run start t = true -> in_order t.
Proof.
  intros Hrun pre e post ->.
  rewrite run_app in Hrun. apply andb_true_iff in Hrun as [_ Hrun].
  simpl in Hrun. apply andb_true_iff in Hrun as [Hadm _].
  unfold admissible in Hadm. apply andb_true_iff in Hadm as [Hsel Hreads].
  split.
  - intros Hk. apply orb_true_iff in Hsel as [Hsel|Hsel].
    { apply negb_true_iff in Hsel. apply kind_eqb_eq in Hk. congruence. }
    apply andb_true_iff in Hsel as [Hi Hl].
    split.
    + by destruct (exec_imported pre start Hi).
    + by destruct (exec_levelled pre start Hl).
  - intros u Hu. rewrite forallb_forall in Hreads.
    specialize (Hreads u Hu). apply bool_decide_eq_true in Hreads.
    rewrite exec_binders in Hreads. unfold reads_from.
    destruct (last_binder (u_name u) pre) as [f|]; [|done].
    exists f. split; [done|]. by simplify_eq.
Qed.

(** A run cut short, as by an exception, is in order if the whole run is. *)
Lemma in_order_prefix (t1 t2 : list event) : in_order (t1 ++ t2) -> in_order t1.
Proof.
  intros Hord pre e post ->. apply (Hord pre e (post ++ t2)).
  by rewrite <- app_assoc.
Qed.

Lemma check_in_order (p : list stmt) (ns : list nat) (t rest : list event) :
  check start p = true -> unroll p ns = t ++ rest -> in_order t.
Proof.
  intros Hc E. apply (in_order_prefix t rest). rewrite <- E.
  by apply run_in_order, check_sound.
Qed.

Lemma unambiguous_eq (p : list stmt) (e g : event) (v : string) :
  unambiguous p = true ->
  In e (steps_of p) -> In g (steps_of p) ->
  ev_line e = ev_line g -> ev_kind e = ev_kind g ->
  In v (ev_writes e) -> In v (ev_writes g) ->
  e = g.
Proof.
  unfold unambiguous. rewrite forallb_forall. intros Hall He Hg Hl Hk Hve Hvg.
  specialize (Hall e He). rewrite forallb_forall in Hall.
  specialize (Hall g Hg). apply orb_true_iff in Hall as [Hn|Heq].
  - apply negb_true_iff in Hn. exfalso.
    rewrite Hl, Hk, Nat.eqb_refl in Hn.
    replace (kind_eqb (ev_kind g) (ev_kind g)) with true in Hn
      by (symmetry; by apply kind_eqb_eq).
    simpl in Hn. apply not_true_iff_false in Hn. apply Hn.
    apply existsb_exists. exists v. split; [done|]. by apply mem_In.
  - by apply bool_decide_eq_true in Heq.
Qed.

(** In a run that is in order, what reaches a step has run before it. *)
Lemma reaching_before (p : list stmt) (t : list event) :
  unambiguous p = true ->
  (forall e, In e t -> In e (steps_of p)) ->
  in_order t ->
  forall fuel pre e post, t = pre ++ e :: post ->
    forall g, In g (reaching p fuel e) -> ev_kind g = Fetch /\ In g pre.
Proof.
  intros Hun Hsteps Hord fuel.
  induction fuel as [|fuel IH]; intros pre e post Ht g Hg; simpl in Hg; [done|].
  apply in_flat_map in Hg as (u & Hu & Hg).
  apply in_flat_map in Hg as (h & Hh & Hg).
  apply filter_In in Hh as [Hh Hb].
  unfold binds in Hb. apply andb_true_iff in Hb as [[Hl Hk]%andb_true_iff Hw].
  apply Nat.eqb_eq in Hl. apply kind_eqb_eq in Hk. apply mem_In in Hw.
  destruct (Hord pre e post Ht) as [_ Hreads].
  destruct (Hreads u Hu) as (f & Hf & Hfl & Hfk).
  apply last_binder_split in Hf as (Hfw & pre1 & post1 & Hpre).
  assert (f = h) as ->.
  { apply (unambiguous_eq p f h (u_name u)); try done; try congruence.
    apply Hsteps. rewrite Ht, Hpre. apply in_or_app. left.
    apply in_or_app. right. by left. }
  apply in_app_or in Hg as [Hg|Hg].
  - destruct (kind_eqb (ev_kind h) Fetch) eqn:E; [|done].
    destruct Hg as [<-|[]]. split; [by apply kind_eqb_eq|].
    rewrite Hpre. apply in_or_app. right. by left.
  - destruct (IH pre1 h (post1 ++ e :: post)) with (g := g) as [Hgk Hgin]; [|done|].
    { rewrite Ht, Hpre. by rewrite <- app_assoc. }
    split; [done|]. rewrite Hpre. apply in_or_app. by left.
Qed.

Lemma check_plots_after_fetch (p : list stmt) (ns : list nat) (t rest : list event) :
  check start p = true -> unambiguous p = true ->
  unroll p ns = t ++ rest -> plots_after_fetch p t.
Proof.
  intros Hc Hun E pre e post Ht _ fuel g Hg.
  apply (reaching_before p t Hun) with (fuel := fuel) (e := e) (post := post); try done.
  - intros e' He'. apply (unroll_steps p ns). rewrite E. apply in_or_app. by left.
  - by apply (check_in_order p ns t rest).
Qed.

End TraceFacts.

Section TraceOrder.
Import Trace.


End TraceOrder.


(** ** The refusal of an infeasible template resolution *)

Section TemplateFacts.
Import BigBrain.
Context {Template : Type}.
Variable exceeds_threshold : space -> Q -> bool.
Variable refusal : space -> Q -> string.
Variable fetch : space -> option Q -> Template.

(** C1: a request for a resolution beyond the feasibility threshold and
    without the override flag raises a value error; the notebook's
    [try/except ValueError] catches it, prints it after ["This didn't
    work!"] and ends normally, which for the space BIG_BRAIN and the
    resolution 20 is the notebook's cell; the same request with
    [force=True] returns the template. *)
Theorem get_template_refusal (sp : space) (r : Q) :
  exceeds_threshold sp r = true ->
  get_template exceeds_threshold refusal fetch sp (Some r) false
  = Raise (ValueError (refusal sp r))
  /\ (forall stdout,
        try_print (get_template exceeds_threshold refusal fetch sp (Some r) false) stdout
        = (Ok tt, stdout ++ [("This didn't work! " ++ refusal sp r)%string]))
  /\ (sp = BIG_BRAIN -> r = 20 # 1 ->
      forall stdout,
        cell_highres exceeds_threshold refusal fetch stdout
        = (Ok tt, stdout ++ [("This didn't work! " ++ refusal sp r)%string]))
  /\ get_template exceeds_threshold refusal fetch sp (Some r) true
     = Ok (fetch sp (Some r)).
Proof.
  intros He.
  assert (get_template exceeds_threshold refusal fetch sp (Some r) false
          = Raise (ValueError (refusal sp r))) as Hraise.
  { unfold get_template. by rewrite He. }
  split; [done|]. split; [|split].
  - intros stdout. by rewrite Hraise.
  - intros -> -> stdout. unfold cell_highres. by rewrite Hraise.
  - unfold get_template. by rewrite He.
Qed.

End TemplateFacts.

(** A library that refuses resolutions finer than 100 micrometres, asked
    for BigBrain at 20 micrometres. *)
Lemma get_template_refusal_bigbrain :
  Qle_bool (20 # 1) (100 # 1) = true
  /\ BigBrain.get_template (fun _ r => Qle_bool r (100 # 1)) (fun _ _ => "too large")
       (fun _ _ => "image") BigBrain.BIG_BRAIN (Some (20 # 1)) false
     = Raise (ValueError "too large")
  /\ BigBrain.cell_highres (fun _ r => Qle_bool r (100 # 1)) (fun _ _ => "too large")
       (fun _ _ => "image") []
     = (Ok tt, ["This didn't work! too large"])
  /\ BigBrain.get_template (fun _ r => Qle_bool r (100 # 1)) (fun _ _ => "too large")
       (fun _ _ => "image") BigBrain.BIG_BRAIN (Some (20 # 1)) true
     = Ok "image".
Proof.
  split; [reflexivity|].
  destruct (get_template_refusal (fun _ r => Qle_bool r (100 # 1))
              (fun _ _ => "too large") (fun _ _ => "image")
              BigBrain.BIG_BRAIN (20 # 1) eq_refl) as (Hraise & _ & Hcell & Hforce).
  split; [exact Hraise|]. split; [exact (Hcell eq_refl eq_refl [])|exact Hforce].
Defined.

(** ** Ranked assignments *)

Section AssignFacts.
Import Assignment.
Context {Region Point Radius : Type}.
Variable candidates : BigBrain.space -> Point -> Radius -> list (Region * Q).

Lemma insert_ranked_perm (x : Region * Q) (l : list (Region * Q)) :
  Permutation (insert_ranked x l) (x :: l).
Proof.
  induction l as [|y l IH]; simpl; [done|].
  destruct (Qle_bool (snd y) (snd x)); [done|].
  rewrite IH. apply perm_swap.
Qed.

Lemma rank_perm (l : list (Region * Q)) : Permutation (rank l) l.
Proof.
  induction l as [|x l IH]; simpl; [done|].
  rewrite insert_ranked_perm. by constructor.
Qed.

Lemma insert_ranked_sorted (x : Region * Q) (l : list (Region * Q)) :
  StronglySorted before l -> StronglySorted before (insert_ranked x l).
Proof.
  induction 1 as [|y l Hl IH Hy]; simpl.
  - repeat constructor.
  - destruct (Qle_bool (snd y) (snd x)) eqn:E.
    + apply Qle_bool_iff in E.
      constructor; [by constructor|]. constructor; [done|].
      eapply Forall_impl; [exact Hy|].
      intros z Hz. unfold before in *. by eapply Qle_trans.
    + constructor; [done|].
      rewrite insert_ranked_perm. constructor; [|done].
      unfold before. apply Qlt_le_weak, Qnot_le_lt.
      intros Hle. apply Qle_bool_iff in Hle. congruence.
Qed.

Lemma rank_sorted (l : list (Region * Q)) : StronglySorted before (rank l).
Proof.
  induction l as [|x l IH]; simpl; [constructor|].
  by apply insert_ranked_sorted.
Qed.

Lemma sorted_head_most (top : Region * Q) (l : list (Region * Q)) :
  StronglySorted before (top :: l) ->
  forall e, In e (top :: l) -> (snd e <= snd top)%Q.
Proof.
  intros Hs e [<-|He]; [apply Qle_refl|].
  apply StronglySorted_inv in Hs as [_ Hall].
  rewrite List.Forall_forall in Hall. by apply Hall.
Qed.

(** C2: [assign_regions] returns one list per query point, in the order of
    the points; the list of a point holds the candidate regions of that
    point with their probabilities, ranked in descending order of
    probability, so its first pair is a most probable region, and for a
    first point with a candidate that is the notebook's
    [closest_region]; the notebook's three best fitting maps are the first
    three of the first point's list. *)
Theorem assign_regions_ranked (sp : BigBrain.space) (xyz : list Point)
    (radius : Radius) :
  length (assign_regions candidates sp xyz radius) = length xyz
  /\ (forall i p, xyz !! i = Some p ->
        exists ranked,
          assign_regions candidates sp xyz radius !! i = Some ranked
          /\ Permutation ranked (candidates sp p radius)
          /\ StronglySorted before ranked
          /\ forall top rest, ranked = top :: rest ->
              forall e, In e ranked -> (snd e <= snd top)%Q)
  /\ (forall p xyz', xyz = p :: xyz' ->
        three_best (assign_regions candidates sp xyz radius)
        = Ok (take 3 (rank (candidates sp p radius))))
  /\ (forall p xyz', xyz = p :: xyz' -> candidates sp p radius <> [] ->
        exists top,
          closest_region (assign_regions candidates sp xyz radius) = Ok (fst top)
          /\ In top (candidates sp p radius)
          /\ forall e, In e (candidates sp p radius) -> (snd e <= snd top)%Q).
Proof.
  split; [apply length_map|]. split.
  - intros i p Hp. exists (rank (candidates sp p radius)).
    split; [unfold assign_regions; by rewrite list_lookup_fmap, Hp|].
    split; [apply rank_perm|]. split; [apply rank_sorted|].
    intros top rest E e He. rewrite E in He.
    apply (sorted_head_most top rest); [|done].
    rewrite <- E. apply rank_sorted.
  - split; [by intros p xyz' ->|].
    intros p xyz' -> Hne.
    pose proof (rank_perm (candidates sp p radius)) as Hperm.
    pose proof (rank_sorted (candidates sp p radius)) as Hsort.
    destruct (rank (candidates sp p radius)) as [|top rest] eqn:E.
    { apply Permutation_nil in Hperm. congruence. }
    exists top. unfold closest_region, assign_regions. simpl. rewrite E. simpl.
    split; [done|]. split.
    + eapply Permutation_in; [exact Hperm|]. by left.
    + intros e He. apply (sorted_head_most top rest Hsort).
      eapply Permutation_in; [symmetry; exact Hperm|done].
Qed.

End AssignFacts.

(** ** Selection and feature retrieval *)

Section AtlasFacts.
Import Walkthrough.
Context {Region Parcellation Feature : Type}.
Variable regions_of : Parcellation -> list Region.
Variable region_name : Region -> string.
Variable region_key : Region -> string.
Variable labelindex : Region -> option Z.
Variable fuzzy : string -> string -> bool.
Variable features_of : modality -> Parcellation -> list Feature.
Variable matches_region : modality -> Feature -> Region -> bool.

Abbreviation resolves := (resolves region_name region_key labelindex fuzzy).
Abbreviation select_region :=
  (select_region regions_of region_name region_key labelindex fuzzy).
Abbreviation get_features := (get_features features_of matches_region).

Lemma filter_sublist (f : Feature -> bool) (l : list Feature) :
  sublist (List.filter f l) l.
Proof.
  induction l as [|x l IH]; simpl; [constructor|].
  destruct (f x); by constructor.
Qed.

Lemma select_region_Some (spec : region_spec) (a a' : atlas Region Parcellation) :
  select_region spec a = Some a' ->
  exists r,
    a' = Atlas (selected_parcellation a) (Some r)
    /\ In r (regions_of (selected_parcellation a))
    /\ resolves spec r = true.
Proof.
  unfold Walkthrough.select_region.
  destruct (List.find _ _) as [r|] eqn:E; [|done].
  intros [= <-]. apply find_some in E as [Hin Hres]. by exists r.
Qed.

Lemma select_region_found (spec : region_spec) (a : atlas Region Parcellation)
    (r : Region) :
  In r (regions_of (selected_parcellation a)) -> resolves spec r = true ->
  exists a' r',
    select_region spec a = Some a'
    /\ selected_region a' = Some r'
    /\ selected_parcellation a' = selected_parcellation a
    /\ In r' (regions_of (selected_parcellation a))
    /\ resolves spec r' = true.
Proof.
  intros Hin Hres. unfold Walkthrough.select_region.
  destruct (List.find _ _) as [r'|] eqn:E.
  - apply find_some in E as [Hin' Hres']. by exists (Atlas (selected_parcellation a) (Some r')), r'.
  - exfalso. pose proof (find_none _ _ E r Hin) as Hno. congruence.
Qed.

(** C3: for every modality, without a selected region (after
    [clear_selection], or after selecting a parcellation) [get_features]
    returns the features linked to the current parcellation, and after a
    [select_region] that resolves it
    returns those of them that match the selected region, in the same
    order. *)
Theorem get_features_selection (m : modality) (a : atlas Region Parcellation) :
  get_features m (clear_selection a) = features_of m (selected_parcellation a)
  /\ (forall p, get_features m (select_parcellation p a) = features_of m p)
  /\ forall spec a', select_region spec a = Some a' ->
      exists r,
        selected_region a' = Some r
        /\ get_features m a'
           = List.filter (fun f => matches_region m f r) (get_features m (clear_selection a))
        /\ sublist (get_features m a') (get_features m (clear_selection a))
        /\ forall f, In f (get_features m a')
             <-> In f (get_features m (clear_selection a)) /\ matches_region m f r = true.
Proof.
  split; [done|]. split; [done|]. intros spec a' Hsel.
  apply select_region_Some in Hsel as (r & -> & _ & _).
  exists r. split; [done|]. split; [done|]. split.
  - unfold Walkthrough.get_features. simpl. apply filter_sublist.
  - intros f. unfold Walkthrough.get_features. simpl. apply filter_In.
Qed.

(** C7: [select_region] resolves each of the three forms of a region
    specification against the regions of the selected parcellation: a text
    fragment that fuzzily matches the name of a region, a key of the
    [regionnames] glossary, and a label index of the parcellation map each
    yield a selection of a region that answers the specification, within
    the same parcellation. *)
Theorem select_region_resolves (a : atlas Region Parcellation) :
  (forall fragment,
     (exists r, In r (regions_of (selected_parcellation a))
                /\ fuzzy fragment (region_name r) = true) ->
     exists a' r',
       select_region (ByText fragment) a = Some a'
       /\ selected_region a' = Some r'
       /\ selected_parcellation a' = selected_parcellation a
       /\ In r' (regions_of (selected_parcellation a))
       /\ fuzzy fragment (region_name r') = true)
  /\ (forall key,
       (exists r, In r (regions_of (selected_parcellation a)) /\ region_key r = key) ->
       exists a' r',
         select_region (ByIdentifier key) a = Some a'
         /\ selected_region a' = Some r'
         /\ selected_parcellation a' = selected_parcellation a
         /\ In r' (regions_of (selected_parcellation a))
         /\ region_key r' = key)
  /\ (forall index,
       (exists r, In r (regions_of (selected_parcellation a))
                  /\ labelindex r = Some index) ->
       exists a' r',
         select_region (ByLabel index) a = Some a'
         /\ selected_region a' = Some r'
         /\ selected_parcellation a' = selected_parcellation a
         /\ In r' (regions_of (selected_parcellation a))
         /\ labelindex r' = Some index).
Proof.
  split; [|split].
  - intros fragment (r & Hin & Hr).
    destruct (select_region_found (ByText fragment) a r Hin Hr)
      as (a' & r' & H1 & H2 & H3 & H4 & H5).
    by exists a', r'.
  - intros key (r & Hin & Hr).
    destruct (select_region_found (ByIdentifier key) a r Hin) as
      (a' & r' & H1 & H2 & H3 & H4 & H5).
    { simpl. apply String.eqb_eq. by symmetry. }
    exists a', r'. repeat (split; [done|]).
    simpl in H5. apply String.eqb_eq in H5. by symmetry.
  - intros index (r & Hin & Hr).
    destruct (select_region_found (ByLabel index) a r Hin) as
      (a' & r' & H1 & H2 & H3 & H4 & H5).
    { simpl. rewrite Hr. apply Z.eqb_refl. }
    exists a', r'. repeat (split; [done|]).
    simpl in H5. destruct (labelindex r') as [i|]; [|done].
    apply Z.eqb_eq in H5. by subst.
Qed.

End AtlasFacts.

(** ** Steps of the notebooks, whatever the run *)

Section StepFacts.
Import Trace.

Lemma delegatedb_sound (e : event) : delegatedb e = true -> delegated e.
Proof.
  unfold delegatedb, delegated.
  intros [Hk|Ho]%orb_true_iff Hkind.
  - apply negb_true_iff, orb_false_iff in Hk as [Hs Hf].
    destruct Hkind as [E|E]; apply kind_eqb_eq in E; congruence.
  - by apply origin_eqb_eq.
Qed.

Lemma own_computesb_sound (e : event) : own_computesb e = true -> own_computes e.
Proof.
  unfold own_computesb, own_computes.
  intros Hb%Bool.eqb_prop. by rewrite <- origin_eqb_eq, <- kind_eqb_eq, Hb.
Qed.

Lemma builtin_iob_sound (e : event) : builtin_iob e = true -> builtin_io e.
Proof.
  unfold builtin_iob, builtin_io.
  intros [[Ho|Hk]%orb_true_iff|Hk]%orb_true_iff Horigin.
  - apply negb_true_iff in Ho. apply origin_eqb_eq in Horigin. congruence.
  - left. by apply kind_eqb_eq.
  - right. by apply kind_eqb_eq.
Qed.

Lemma stores_onlyb_sound (e : event) : stores_onlyb e = true -> stores_only e.
Proof.
  unfold stores_onlyb, stores_only.
  intros [Hm|[Hc Hw]%andb_true_iff]%orb_true_iff (u & Hu & Hname).
  - apply negb_true_iff in Hm. apply not_true_iff_false in Hm.
    exfalso. apply Hm. apply existsb_exists. exists u. split; [done|].
    apply orb_true_iff. destruct Hname as [->| ->]; [by left|by right].
  - apply String.eqb_eq in Hc. split; [done|]. by destruct (ev_writes e).
Qed.

(** What holds of every statement of a program holds of every step of
    every run. *)
Lemma steps_checked (P : event -> Prop) (b : event -> bool) (p : list stmt) :
  (forall e, b e = true -> P e) ->
  forallb b (steps_of p) = true ->
  forall ns, List.Forall P (unroll p ns).
Proof.
  intros Hb Hall ns. apply List.Forall_forall. intros e He.
  apply Hb. rewrite forallb_forall in Hall.
  by apply Hall, (unroll_steps p ns).
Qed.

Lemma steps_delegated :
  List.Forall
    (fun p => forall ns,
       List.Forall (fun e => delegated e /\ own_computes e /\ builtin_io e)
         (unroll p ns))
    notebooks.
Proof.
  unfold notebooks.
  constructor; [|constructor; [|constructor; [|constructor]]];
    apply (steps_checked _
             (fun e => delegatedb e && own_computesb e && builtin_iob e));
    try (vm_compute; reflexivity);
    intros e [[Hd Ho]%andb_true_iff Hb]%andb_true_iff;
    auto using delegatedb_sound, own_computesb_sound, builtin_iob_sound.
Qed.

Lemma steps_store_only :
  List.Forall (fun p => forall ns, List.Forall stores_only (unroll p ns)) notebooks.
Proof.
  unfold notebooks.
  constructor; [|constructor; [|constructor; [|constructor]]];
    apply (steps_checked _ stores_onlyb);
    try (vm_compute; reflexivity); apply stores_onlyb_sound.
Qed.

End StepFacts.

(** ** The token and cache-directory cells *)

(** C5: whatever the platform does with the assignment, the token cell
    either stores what the user typed under HBP_AUTH_TOKEN, unchanged, or,
    when the platform refuses the value, raises what the platform raises
    and leaves the environment as it was; on a POSIX system it refuses
    exactly the tokens with a NUL character, with a [ValueError].  Every
    other variable of the
    environment stays as it was, SIIBRA_CACHEDIR included; what the cell
    does to the browser, the prompts and the environment does not depend
    on the values the environment held; the cache-directory cell does
    nothing; and in no run of any notebook does a step other than that
    assignment read [environ] or [token]. *)
Theorem environment_only_stored (putenv : string -> string -> res unit)
    (typed : string) (k : Walkthrough.kernel) :
  match putenv "HBP_AUTH_TOKEN" typed with
  | Ok _ =>
      (Walkthrough.cell_token putenv typed k).1 = Ok typed
      /\ Walkthrough.environ (Walkthrough.cell_token putenv typed k).2
           !! "HBP_AUTH_TOKEN" = Some typed
  | Raise e =>
      (Walkthrough.cell_token putenv typed k).1 = Raise e
      /\ Walkthrough.environ (Walkthrough.cell_token putenv typed k).2
         = Walkthrough.environ k
  end
  /\ (if Walkthrough.has_nul typed
      then (exists msg,
              (Walkthrough.cell_token Walkthrough.posix_putenv typed k).1
              = Raise (ValueError msg))
           /\ Walkthrough.environ
                (Walkthrough.cell_token Walkthrough.posix_putenv typed k).2
              = Walkthrough.environ k
      else (Walkthrough.cell_token Walkthrough.posix_putenv typed k).1 = Ok typed
           /\ Walkthrough.environ
                (Walkthrough.cell_token Walkthrough.posix_putenv typed k).2
              = <["HBP_AUTH_TOKEN" := typed]> (Walkthrough.environ k))
  /\ (forall v, v <> "HBP_AUTH_TOKEN" ->
        Walkthrough.environ (Walkthrough.cell_token putenv typed k).2 !! v
        = Walkthrough.environ k !! v)
  /\ Walkthrough.environ
       (Walkthrough.cell_cachedir (Walkthrough.cell_token putenv typed k).2)
       !! "SIIBRA_CACHEDIR"
     = Walkthrough.environ k !! "SIIBRA_CACHEDIR"
  /\ (forall env',
        let k' := Walkthrough.Kernel env' (Walkthrough.browser k) (Walkthrough.prompts k) in
        (Walkthrough.cell_token putenv typed k').1
        = (Walkthrough.cell_token putenv typed k).1
        /\ Walkthrough.browser (Walkthrough.cell_token putenv typed k').2
           = Walkthrough.browser (Walkthrough.cell_token putenv typed k).2
        /\ Walkthrough.prompts (Walkthrough.cell_token putenv typed k').2
           = Walkthrough.prompts (Walkthrough.cell_token putenv typed k).2
        /\ Walkthrough.environ (Walkthrough.cell_token putenv typed k').2
           = match putenv "HBP_AUTH_TOKEN" typed with
             | Ok _ => <["HBP_AUTH_TOKEN" := typed]> env'
             | Raise _ => env'
             end)
  /\ Walkthrough.cell_cachedir k = k
  /\ List.Forall (fun p => forall ns, List.Forall Trace.stores_only (Trace.unroll p ns))
       Trace.notebooks.
Proof.
  unfold Walkthrough.cell_token, Walkthrough.environ_setitem,
    Walkthrough.cell_cachedir.
  split.
  { destruct (putenv "HBP_AUTH_TOKEN" typed); simpl; [|done].
    split; [done|apply lookup_insert_eq]. }
  split.
  { unfold Walkthrough.posix_putenv. simpl.
    destruct (Walkthrough.has_nul typed); simpl; [|done].
    split; [by eexists|done]. }
  split.
  { intros v Hv. destruct (putenv "HBP_AUTH_TOKEN" typed); simpl; [|done].
    by rewrite lookup_insert_ne. }
  split.
  { destruct (putenv "HBP_AUTH_TOKEN" typed); simpl; [|done].
    by rewrite lookup_insert_ne. }
  split.
  { intros env'. simpl. by destruct (putenv "HBP_AUTH_TOKEN" typed). }
  split; [done|]. apply steps_store_only.
Qed.

(** ** Features are only read *)

Section ReadOnly.
Context {H : Type}.

Lemma readonly_hret {A} (a : A) : readonly (H := H) (hret a).
Proof. by intros h. Qed.

Lemma readonly_hlift {A} (r : res A) : readonly (H := H) (hlift r).
Proof. by intros h. Qed.

Lemma readonly_hbind {A B} (m : hm H A) (k : A -> hm H B) :
  readonly m -> (forall a, readonly (k a)) -> readonly (hbind m k).
Proof.
  intros Hm Hk h. unfold hbind. specialize (Hm h).
  destruct (m h) as [[a|e] h']; simpl in Hm; subst; [apply Hk|done].
Qed.

Lemma readonly_hcomprehension {A B} (f : A -> hm H B) (l : list A) :
  (forall x, readonly (f x)) -> readonly (hcomprehension f l).
Proof.
  intros Hf. induction l as [|x l IH]; simpl; [apply readonly_hret|].
  apply readonly_hbind; [apply Hf|]. intros y.
  apply readonly_hbind; [apply IH|]. intros ys. apply readonly_hret.
Qed.

End ReadOnly.

Section FeatureFacts.
Context {Region Parcellation V : Type} `{Countable Region}.
Variable zero : V.
Variable name : Region -> string.
Variable decoded : Parcellation -> Assignment.profile_obj V -> list (V * Region).
Variable wrap : string -> nat -> list string.

Lemma readonly_profile_deref (l : positive) :
  readonly (Assignment.deref (V := V) l).
Proof. intros h. unfold Assignment.deref. by destruct (h !! l). Qed.

Lemma readonly_decode (l : positive) (parc : Parcellation) :
  readonly (Assignment.decode decoded l parc).
Proof.
  apply readonly_hbind; [apply readonly_profile_deref|].
  intros o. apply readonly_hret.
Qed.

Lemma readonly_get_src_name (l : positive) :
  readonly (Assignment.get_src_name (V := V) l).
Proof.
  apply readonly_hbind; [apply readonly_profile_deref|].
  intros o. apply readonly_hret.
Qed.

Lemma readonly_cells_profiles (profiles : list positive) (parc : Parcellation) :
  readonly (Assignment.cells_profiles zero name decoded profiles parc).
Proof.
  apply readonly_hbind.
  - apply readonly_hbind.
    + apply readonly_hcomprehension. intros p. apply readonly_decode.
    + intros ds. apply readonly_hbind; [apply readonly_hlift|].
      intros p. apply readonly_hret.
  - intros dt. apply readonly_hbind; [apply readonly_hlift|].
    intros fig. apply readonly_hbind.
    + apply readonly_hcomprehension. intros p. apply readonly_get_src_name.
    + intros legend. apply readonly_hret.
Qed.

Lemma readonly_matrix_deref (l : positive) :
  readonly (Walkthrough.deref (V := V) l).
Proof. intros h. unfold Walkthrough.deref. by destruct (h !! l). Qed.

Lemma readonly_cell_matrices (found : list positive) :
  readonly (Walkthrough.cell_matrices (V := V) wrap found).
Proof.
  apply readonly_hbind; [apply readonly_hlift|]. intros axs.
  apply readonly_hcomprehension. intros entry.
  apply readonly_hbind; [apply readonly_hlift|]. intros ax.
  apply readonly_hbind; [apply readonly_matrix_deref|]. intros o.
  apply readonly_hret.
Qed.

(** C8: the notebooks only read the features [get_features] returned.
    The cells that decode the connectivity profiles, plot them and build
    the legend from their [src_name], and the cell that plots the
    connectivity matrices, leave every stored feature object as it was,
    whether they end normally or in an exception; decoding a profile
    returns a value computed from the object and leaves the object
    unchanged. *)
Theorem features_read_only :
  (forall profiles parc (h : gmap positive (Assignment.profile_obj V)),
     (Assignment.cells_profiles zero name decoded profiles parc h).2 = h)
  /\ (forall l parc (h : gmap positive (Assignment.profile_obj V)),
       (Assignment.decode decoded l parc h).2 = h
       /\ forall o, h !! l = Some o ->
          Assignment.decode decoded l parc h = (Ok (decoded parc o), h))
  /\ (forall found (h : gmap positive (Walkthrough.matrix_obj V)),
       (Walkthrough.cell_matrices wrap found h).2 = h).
Proof.
  split; [|split].
  - intros profiles parc h. apply readonly_cells_profiles.
  - intros l parc h. split; [apply readonly_decode|].
    intros o Ho. unfold Assignment.decode, hbind, Assignment.deref. by rewrite Ho.
  - intros found h. apply readonly_cell_matrices.
Qed.

End FeatureFacts.

(** ** The functions the notebooks define *)

Section NotebookFunctions.
Context {Img Region V : Type} `{Countable Region}.
Variable zero : V.
Variable name : Region -> string.
Variable wrap : string -> nat -> list string.

Lemma replace_underscore_length (text : string) :
  String.length (Walkthrough.replace_underscore text) = String.length text.
Proof. induction text as [|c text IH]; simpl; [done|]. by rewrite IH. Qed.

Lemma replace_underscore_get (text : string) (i : nat) :
  String.get i (Walkthrough.replace_underscore text)
  = option_map (fun c => if Ascii.eqb c "_"%char then " "%char else c)
      (String.get i text).
Proof.
  revert i. induction text as [|c text IH]; intros i; simpl; [done|].
  destruct i as [|i]; [done|]. apply IH.
Qed.


End NotebookFunctions.


(** ** The definitions at work *)

(** A region listed twice counts with its last strength, a region not
    listed with 0. *)
Example plot_connectivity_profiles_duplicate :
  Assignment.plot_connectivity_profiles 0%Z (fun r : string => r)
    [[(1%Z, "A"); (2%Z, "B"); (3%Z, "A")]] ["A"; "C"; "B"]
  = Ok (Assignment.Figure [0; 1; 2] ["A"; "C"; "B"]
          [Assignment.Line [0; 1; 2] [3%Z; 0%Z; 2%Z]] true).
Proof. vm_compute. reflexivity. Qed.

Example rank_descending :
  Assignment.rank [("a", 1 # 4); ("b", 1 # 2); ("c", 1 # 4)]
  = [("b", 1 # 2); ("a", 1 # 4); ("c", 1 # 4)].
Proof. reflexivity. Qed.

Example replace_underscore_name :
  Walkthrough.replace_underscore "1000_brains_FC" = "1000 brains FC".
Proof. reflexivity. Qed.

(** A parcellation with three regions, selected by label index. *)
Example select_region_by_label :
  Walkthrough.select_region (Region := string * Z) (Parcellation := unit)
    (fun _ => [("V1", 1%Z); ("V1 left", 112%Z); ("V1 right", 113%Z)])
    fst fst (fun r => Some (snd r)) String.eqb
    (Walkthrough.ByLabel 112) (Walkthrough.Atlas tt None)
  = Some (Walkthrough.Atlas tt (Some ("V1 left", 112%Z))).
Proof. reflexivity. Qed.

(** With one feature found the cell ends in the [TypeError] of [axs[0]]. *)
Example cell_matrices_one :
  (Walkthrough.cell_matrices (V := Z) (fun s _ => [s]) [1%positive]
     (<[1%positive := Walkthrough.MatrixObj [[1%Z]] "a_b" ""]> ∅)).1
  = Raise (TypeError "'AxesSubplot' object is not subscriptable").
Proof. vm_compute. reflexivity. Qed.

(** The steps of the assignment notebook up to the first fetch. *)
Example assignment_first_steps :
  map Trace.ev_kind (take 7 (Trace.unroll Trace.assignment []))
  = [Trace.Import; Trace.LogLevel; Trace.Compute; Trace.Compute;
     Trace.Select; Trace.Select; Trace.Fetch].
Proof. reflexivity. Qed.

(** On a POSIX system a token with a NUL character is refused: the cell
    has opened the browser and prompted, raises, and stores nothing. *)
Example cell_token_nul :
  Walkthrough.cell_token Walkthrough.posix_putenv
    (String "a" (String Ascii.zero "b")) (Walkthrough.Kernel ∅ [] [])
  = (Raise (ValueError "embedded null byte"),
     Walkthrough.Kernel ∅
       ["https://nexus-iam.humanbrainproject.org/v0/oauth2/authorize"]
       ["Enter your token here: "]).
Proof. reflexivity. Qed.

(** A token without one is stored as typed. *)
Example cell_token_stored :
  Walkthrough.environ
    (Walkthrough.cell_token Walkthrough.posix_putenv "abc"
       (Walkthrough.Kernel ∅ [] [])).2
  = {[ "HBP_AUTH_TOKEN" := "abc" ]}.
Proof. reflexivity. Qed.

(** * Part III: further properties of the notebooks' code *)

(** ** The dictionary of a profile *)

Section DictFacts.
Import Assignment.
Context {Region : Type} `{Countable Region} {V : Type}.

Lemma dict_of_profile_present (p : list (V * Region)) (r : Region) :
  r ∈ p.*2 -> exists s, dict_of_profile p !! r = Some s /\ (s, r) ∈ p.
Proof.
  intros Hin. destruct (last_entry p r Hin) as (l1 & s & l2 & -> & Hl2).
  exists s. split; [by apply dict_of_profile_last|].
  apply elem_of_app. right. left.
Qed.

(** X1: The keys of the dictionary are the regions of the profile, so
    [r in probs] holds exactly for them; the dictionary has at most as many
    entries as the profile, and as many when no region is listed twice. *)
Theorem dict_of_profile_keys (p : list (V * Region)) :
  dom (dict_of_profile p) = list_to_set p.*2
  /\ (forall r, contains (dict_of_profile p) r = true <-> r ∈ p.*2)
  /\ size (dict_of_profile p) <= length p
  /\ (NoDup p.*2 -> size (dict_of_profile p) = length p).
Proof.
  assert (dom (dict_of_profile p) = list_to_set p.*2) as Hdom.
  { induction p as [|[s r] p IH] using rev_ind.
    { unfold dict_of_profile. simpl. by rewrite dom_empty_L. }
    rewrite dict_of_profile_snoc, dom_insert_L, IH, fmap_app, list_to_set_app_L.
    simpl. rewrite (right_id_L ∅ (∪)). apply (comm_L (∪)). }
  split; [done|]. split.
  { intros r. unfold contains. rewrite bool_decide_eq_true.
    rewrite <- elem_of_dom, Hdom. apply elem_of_list_to_set. }
  clear Hdom. split.
  - induction p as [|[s r] p IH] using rev_ind; [done|].
    rewrite dict_of_profile_snoc, length_app. simpl.
    destruct (dict_of_profile p !! r) as [s'|] eqn:E.
    + rewrite map_size_insert_Some by done. lia.
    + rewrite map_size_insert_None by done. lia.
  - induction p as [|[s r] p IH] using rev_ind; [done|].
    rewrite fmap_app. simpl. intros [Hnd [Hr _]]%NoDup_app.
    rewrite dict_of_profile_snoc, length_app. simpl.
    rewrite map_size_insert_None, IH; [lia|done|].
    apply dict_of_profile_absent. intros Hin. apply (Hr r Hin). left.
Qed.

(** Without a region listed twice, the dictionary holds the pairs of the
    profile and nothing else. *)
Lemma dict_of_profile_NoDup (p : list (V * Region)) (r : Region) (s : V) :
  NoDup p.*2 -> dict_of_profile p !! r = Some s <-> (s, r) ∈ p.
Proof.
  intros Hnd. split.
  - intros Hs. destruct (decide (r ∈ p.*2)) as [Hin|Hout].
    + destruct (dict_of_profile_present p r Hin) as (s' & Hs' & Hp). congruence.
    + by rewrite dict_of_profile_absent in Hs.
  - intros Hp. apply list_elem_of_split in Hp as (l1 & l2 & ->).
    apply dict_of_profile_last.
    rewrite fmap_app in Hnd. simpl in Hnd.
    apply NoDup_app in Hnd as (_ & _ & Hnd). by apply NoDup_cons in Hnd as [Hr _].
Qed.

End DictFacts.

(** ** Target regions and the lines of the plot *)

Section PlotFacts.
Import Assignment.
Context {Region : Type} `{Countable Region} {V : Type}.
Variable zero : V.
Variable name : Region -> string.

Lemma first_line (p : list (V * Region)) (rest : list (list (V * Region)))
    (targets : list Region) :
  exists fig,
    plot_connectivity_profiles zero name (p :: rest) targets = Ok fig
    /\ fig_lines fig !! 0
       = Some (Line (seq 0 (length targets))
                 (map (fun r => default zero (dict_of_profile p !! r)) targets)).
Proof. eexists. split; [apply plot_connectivity_profiles_total|done]. Qed.

(** X2: The target regions are the regions of the first 20 entries of the
    first decoded profile (fewer if the profile is shorter), and without a
    decoded profile the cell ends in an [IndexError].  Plotted against
    these targets, the line of the first profile never falls back on 0:
    each of its values is listed in the profile for its target region. *)
Theorem target_regions_first_profile (p : list (V * Region))
    (rest : list (list (V * Region))) :
  target_regions_of (@nil (list (V * Region))) = Raise IndexError
  /\ target_regions_of (p :: rest) = Ok (map snd (take 20 p))
  /\ length (map snd (take 20 p)) = min 20 (length p)
  /\ exists fig ln,
      plot_connectivity_profiles zero name (p :: rest) (map snd (take 20 p)) = Ok fig
      /\ fig_lines fig !! 0 = Some ln
      /\ length (line_y ln) = min 20 (length p)
      /\ Forall2 (fun v r => (v, r) ∈ p) (line_y ln) (map snd (take 20 p)).
Proof.
  split; [done|]. split; [done|].
  split; [by rewrite length_map, length_take|].
  destruct (first_line p rest (map snd (take 20 p))) as (fig & Hfig & Hln).
  eexists _, _. split; [exact Hfig|]. split; [exact Hln|]. simpl.
  split; [by rewrite !length_map, length_take|].
  apply Forall2_fmap_l, Forall_Forall2_diag, Forall_forall.
  intros r Hr. simpl.
  assert (r ∈ p.*2) as Hin.
  { apply list_elem_of_fmap in Hr as (e & -> & He).
    apply list_elem_of_fmap. exists e. split; [done|].
    by apply (subseteq_take 20 p). }
  destruct (dict_of_profile_present p r Hin) as (s & -> & Hs). done.
Qed.

(** X3: When no region is listed twice in the first decoded profile, its line
    shows the strengths of its first 20 entries, in the profile's order. *)
Theorem first_line_reproduces (p : list (V * Region))
    (rest : list (list (V * Region))) :
  NoDup p.*2 ->
  exists fig ln,
    plot_connectivity_profiles zero name (p :: rest) (map snd (take 20 p)) = Ok fig
    /\ fig_lines fig !! 0 = Some ln
    /\ line_y ln = map fst (take 20 p).
Proof.
  intros Hnd.
  destruct (first_line p rest (map snd (take 20 p))) as (fig & Hfig & Hln).
  eexists _, _. split; [exact Hfig|]. split; [exact Hln|]. simpl.
  rewrite map_map. apply map_ext_in. intros [s r] He. simpl.
  apply list_elem_of_In, (subseteq_take 20 p) in He.
  apply (dict_of_profile_NoDup p r s Hnd) in He. by rewrite He.
Qed.

Lemma dict_of_profile_perm (p p' : list (V * Region)) :
  NoDup p.*2 -> p ≡ₚ p' -> dict_of_profile p = dict_of_profile p'.
Proof.
  intros Hnd Hperm.
  assert (NoDup p'.*2) as Hnd' by (by rewrite <- Hperm).
  apply map_eq. intros r.
  destruct (dict_of_profile p !! r) as [s|] eqn:E.
  - symmetry. apply (dict_of_profile_NoDup p' r s Hnd').
    rewrite <- Hperm. by apply (dict_of_profile_NoDup p r s Hnd).
  - symmetry. apply dict_of_profile_absent. rewrite <- Hperm.
    intros Hin. destruct (dict_of_profile_present p r Hin) as (s & Hs & _).
    congruence.
Qed.

(** X4: The order of the entries inside a profile does not matter to the plot
    as long as no region is listed twice: profiles that are rearrangements
    of one another, entry by entry of the list of profiles, give the same
    figure. *)
Theorem plot_connectivity_profiles_rearranged
    (profiles profiles' : list (list (V * Region))) (targets : list Region) :
  Forall2 (fun p p' => NoDup p.*2 /\ p ≡ₚ p') profiles profiles' ->
  plot_connectivity_profiles zero name profiles targets
  = plot_connectivity_profiles zero name profiles' targets.
Proof.
  intros Hall. rewrite !plot_connectivity_profiles_total. do 2 f_equal.
  induction Hall as [|p p' ps ps' [Hnd Hperm] _ IH]; simpl; [done|].
  by rewrite IH, (dict_of_profile_perm p p' Hnd Hperm).
Qed.

(** X5: A profile that lists none of the target regions is drawn as a line of
    zeros, without any error. *)
Theorem foreign_profile_flat (profiles : list (list (V * Region)))
    (targets : list Region) (i : nat) (p : list (V * Region)) :
  profiles !! i = Some p ->
  (forall r, r ∈ targets -> r ∉ p.*2) ->
  exists fig,
    plot_connectivity_profiles zero name profiles targets = Ok fig
    /\ fig_lines fig !! i
       = Some (Line (seq 0 (length targets)) (replicate (length targets) zero)).
Proof.
  intros Hp Hforeign. eexists.
  split; [apply plot_connectivity_profiles_total|]. simpl.
  rewrite list_lookup_fmap, Hp. simpl. do 2 f_equal.
  clear Hp. induction targets as [|r targets IH]; simpl; [done|].
  rewrite dict_of_profile_absent by (apply Hforeign; left). simpl.
  f_equal. apply IH. intros r' Hr'. apply Hforeign. by right.
Qed.

End PlotFacts.

(** A profile without repeated region, plotted over its own regions. *)
Lemma first_line_reproduces_two :
  NoDup [(3%Z, "A"); (1%Z, "B")].*2
  /\ exists fig ln,
      Assignment.plot_connectivity_profiles 0%Z (fun r : string => r)
        [[(3%Z, "A"); (1%Z, "B")]] ["A"; "B"] = Ok fig
      /\ Assignment.fig_lines fig !! 0 = Some ln
      /\ Assignment.line_y ln = [3%Z; 1%Z].
Proof.
  assert (NoDup [(3%Z, "A"); (1%Z, "B")].*2) as Hnd.
  { simpl. apply NoDup_cons. split; [|apply NoDup_singleton].
    intros Hin. apply list_elem_of_singleton in Hin. discriminate. }
  split; [exact Hnd|].
  exact (first_line_reproduces 0%Z (fun r : string => r)
           [(3%Z, "A"); (1%Z, "B")] [] Hnd).
Defined.

(** Two entries swapped inside a profile. *)
Lemma plot_connectivity_profiles_rearranged_swap :
  Forall2 (fun p p' : list (Z * string) => NoDup p.*2 /\ p ≡ₚ p')
    [[(3%Z, "A"); (1%Z, "B")]] [[(1%Z, "B"); (3%Z, "A")]]
  /\ Assignment.plot_connectivity_profiles 0%Z (fun r : string => r)
       [[(3%Z, "A"); (1%Z, "B")]] ["B"; "A"]
     = Assignment.plot_connectivity_profiles 0%Z (fun r : string => r)
       [[(1%Z, "B"); (3%Z, "A")]] ["B"; "A"].
Proof.
  assert (Forall2 (fun p p' : list (Z * string) => NoDup p.*2 /\ p ≡ₚ p')
            [[(3%Z, "A"); (1%Z, "B")]] [[(1%Z, "B"); (3%Z, "A")]]) as Hall.
  { constructor; [|constructor]. split; [|apply perm_swap].
    simpl. apply NoDup_cons. split; [|apply NoDup_singleton].
    intros Hin. apply list_elem_of_singleton in Hin. discriminate. }
  split; [exact Hall|].
  exact (plot_connectivity_profiles_rearranged 0%Z (fun r : string => r)
           _ _ ["B"; "A"] Hall).
Defined.

(** With a region listed twice the order does matter: the later entry
    wins. *)
Example plot_connectivity_profiles_order_matters :
  Assignment.plot_connectivity_profiles 0%Z (fun r : string => r)
    [[(1%Z, "A"); (2%Z, "A")]] ["A"]
  <> Assignment.plot_connectivity_profiles 0%Z (fun r : string => r)
    [[(2%Z, "A"); (1%Z, "A")]] ["A"].
Proof. rewrite !plot_connectivity_profiles_total. vm_compute. discriminate. Qed.

(** A profile over other regions than the targets. *)
Lemma foreign_profile_flat_one :
  [[(5%Z, "A")]] !! 0 = Some [(5%Z, "A")]
  /\ (forall r : string, r ∈ ["B"; "C"] -> r ∉ [(5%Z, "A")].*2)
  /\ exists fig,
      Assignment.plot_connectivity_profiles 0%Z (fun r : string => r)
        [[(5%Z, "A")]] ["B"; "C"] = Ok fig
      /\ Assignment.fig_lines fig !! 0 = Some (Assignment.Line [0; 1] [0%Z; 0%Z]).
Proof.
  assert (forall r : string, r ∈ ["B"; "C"] -> r ∉ [(5%Z, "A")].*2) as Hforeign.
  { intros r Hr Hin. simpl in Hin. apply list_elem_of_singleton in Hin. subst r.
    apply elem_of_cons in Hr as [Hr|Hr]; [discriminate|].
    apply list_elem_of_singleton in Hr. discriminate. }
  split; [reflexivity|]. split; [exact Hforeign|].
  exact (foreign_profile_flat 0%Z (fun r : string => r)
           [[(5%Z, "A")]] ["B"; "C"] 0 [(5%Z, "A")] eq_refl Hforeign).
Defined.

(** ** The best regions of the first point *)

Section BestFacts.
Import Assignment.
Context {Region : Type}.

(** X6: Cells 4 and 5 on an assignment list: both end in an [IndexError] when
    there is no point; for a first point without any region the slice of
    cell 4 is empty and only cell 5 ends in an [IndexError]; otherwise
    cell 4 takes at most three pairs and the region cell 5 selects is the
    region of the first of them. *)
Theorem best_regions_edges (assignments : list (list (Region * Q))) :
  (three_best assignments = Raise IndexError <-> assignments = [])
  /\ (closest_region assignments = Raise IndexError
      <-> assignments = [] \/ exists more, assignments = [] :: more)
  /\ (forall r, closest_region assignments = Ok r
      <-> exists q rest more, assignments = ((r, q) :: rest) :: more)
  /\ (forall first more, assignments = first :: more ->
      three_best assignments = Ok (take 3 first)
      /\ length (take 3 first) = min 3 (length first))
  /\ (forall r, closest_region assignments = Ok r ->
      exists q l, three_best assignments = Ok ((r, q) :: l)).
Proof.
  destruct assignments as [|[|[r0 q0] rest0] more0].
  - split; [done|]. split; [split; [by left|done]|].
    split; [|split; [done|done]].
    intros r. split; [done|]. by intros (q & rest & more & ?).
  - split; [done|]. split.
    { split; [intros _; right; by eexists|done]. }
    split; [|split; [|done]].
    + intros r. split; [done|]. by intros (q & rest & more & ?).
    + by intros first more [= <- <-].
  - split; [done|]. split.
    { split; [done|]. by intros [?|[more ?]]. }
    split; [|split].
    + intros r. split.
      * intros [= <-]. by exists q0, rest0, more0.
      * by intros (q & rest & more & [= -> _ _ _]).
    + intros first more [= <- <-]. split; [done|].
      by rewrite length_take.
    + intros r [= <-]. by exists q0, (take 2 rest0).
Qed.

End BestFacts.

(** ** The handler of the high-resolution cell *)

Section HandlerFacts.
Import BigBrain.
Context {Template : Type}.

(** The [try/except] of the cell catches a [ValueError] and nothing else:
    any other exception leaves the cell as it is and nothing is printed;
    a normal return prints nothing either; what was printed before is
    kept, and at most one line is added. *)
Theorem try_print_catches (body : res Template) (stdout : list string) :
  (forall t, body = Ok t -> try_print body stdout = (Ok tt, stdout))
  /\ (forall msg, body = Raise (ValueError msg) ->
      try_print body stdout
      = (Ok tt, stdout ++ [("This didn't work! " ++ msg)%string]))
  /\ (forall e, body = Raise e -> (forall msg, e <> ValueError msg) ->
      try_print body stdout = (Raise e, stdout))
  /\ stdout `prefix_of` (try_print body stdout).2
  /\ length (try_print body stdout).2 <= S (length stdout).
Proof.
  split; [by intros t ->|]. split; [by intros msg ->|]. split.
  { intros e -> Hne. destruct e as [msg| | |msg]; try done. by destruct (Hne msg). }
  destruct body as [t|[msg| | |msg]]; simpl; split; try done; try lia.
  - by apply prefix_app_r.
  - unfold print2. rewrite length_app. simpl. lia.
Qed.

End HandlerFacts.

(** ** Running the token cell again *)

(** X7: Running the token cell a second time replaces the stored token when
    the platform accepts the second token: the environment is then the one
    a single run with the second token gives; when the platform refuses
    it, the second run raises and the environment stays as the first run
    left it.  Storing the token already stored leaves the environment as
    it was; the browser is opened and the user is prompted once per run,
    whether or not the assignment raises. *)
Theorem cell_token_rerun (putenv : string -> string -> res unit)
    (t1 t2 : string) (k : Walkthrough.kernel) :
  match putenv "HBP_AUTH_TOKEN" t2 with
  | Ok _ =>
      (Walkthrough.cell_token putenv t2 (Walkthrough.cell_token putenv t1 k).2).1
      = Ok t2
      /\ Walkthrough.environ
           (Walkthrough.cell_token putenv t2 (Walkthrough.cell_token putenv t1 k).2).2
         = Walkthrough.environ (Walkthrough.cell_token putenv t2 k).2
      /\ Walkthrough.environ
           (Walkthrough.cell_token putenv t2 (Walkthrough.cell_token putenv t1 k).2).2
           !! "HBP_AUTH_TOKEN" = Some t2
  | Raise e =>
      (Walkthrough.cell_token putenv t2 (Walkthrough.cell_token putenv t1 k).2).1
      = Raise e
      /\ Walkthrough.environ
           (Walkthrough.cell_token putenv t2 (Walkthrough.cell_token putenv t1 k).2).2
         = Walkthrough.environ (Walkthrough.cell_token putenv t1 k).2
  end
  /\ (Walkthrough.environ k !! "HBP_AUTH_TOKEN" = Some t1 ->
      Walkthrough.environ (Walkthrough.cell_token putenv t1 k).2
      = Walkthrough.environ k)
  /\ length (Walkthrough.browser
               (Walkthrough.cell_token putenv t2 (Walkthrough.cell_token putenv t1 k).2).2)
     = 2 + length (Walkthrough.browser k)
  /\ length (Walkthrough.prompts
               (Walkthrough.cell_token putenv t2 (Walkthrough.cell_token putenv t1 k).2).2)
     = 2 + length (Walkthrough.prompts k).
Proof.
  unfold Walkthrough.cell_token, Walkthrough.environ_setitem.
  split.
  { destruct (putenv "HBP_AUTH_TOKEN" t2); simpl; [|done].
    split; [done|].
    destruct (putenv "HBP_AUTH_TOKEN" t1); simpl;
      [split; [apply insert_insert_eq|apply lookup_insert_eq]
      |split; [done|apply lookup_insert_eq]]. }
  split.
  { intros Hk. destruct (putenv "HBP_AUTH_TOKEN" t1); simpl; [|done].
    by apply insert_id. }
  destruct (putenv "HBP_AUTH_TOKEN" t1), (putenv "HBP_AUTH_TOKEN" t2); simpl;
    rewrite !length_app; simpl; lia.
Qed.

(** ** Underscores in dataset names *)

Section TitleFacts.
Import Walkthrough.

Lemma replace_underscore_app (a b : string) :
  replace_underscore (a ++ b)%string
  = (replace_underscore a ++ replace_underscore b)%string.
Proof. induction a as [|c a IH]; simpl; [done|]. by rewrite IH. Qed.

Lemma replace_underscore_idem (text : string) :
  replace_underscore (replace_underscore text) = replace_underscore text.
Proof.
  induction text as [|c text IH]; simpl; [done|]. rewrite IH. f_equal.
  destruct (Ascii.eqb c "_") eqn:E; [done|]. by rewrite E.
Qed.

(** X8: After [text.replace('_',' ')] no underscore is left; replacing again
    changes nothing, a text without underscore is returned as it is, the
    replacement of a concatenation is the concatenation of the
    replacements, and [titleformat] gives the same title for a name and
    for the name with its underscores already replaced. *)
Theorem replace_underscore_clean (text : string) :
  (forall i, String.get i (replace_underscore text) <> Some "_"%char)
  /\ replace_underscore (replace_underscore text) = replace_underscore text
  /\ (forall more, replace_underscore (text ++ more)%string
                   = (replace_underscore text ++ replace_underscore more)%string)
  /\ ((forall i, String.get i text <> Some "_"%char) -> replace_underscore text = text)
  /\ forall wrap, titleformat wrap (replace_underscore text) = titleformat wrap text.
Proof.
  split; [|split; [apply replace_underscore_idem|split; [|split]]].
  - induction text as [|c text IH]; intros i; simpl; [done|].
    destruct i as [|i]; [|apply IH].
    destruct (Ascii.eqb c "_") eqn:E; [done|].
    intros [= ->]. by rewrite Ascii.eqb_refl in E.
  - intros more. apply replace_underscore_app.
  - induction text as [|c text IH]; intros Hno; simpl; [done|].
    rewrite IH by (intros i; apply (Hno (S i))).
    destruct (Ascii.eqb c "_") eqn:E; [|done].
    apply Ascii.eqb_eq in E. subst c. by destruct (Hno 0).
  - intros wrap. unfold titleformat. by rewrite replace_underscore_idem.
Qed.

End TitleFacts.

(** ** Lines and legend of the profile plot *)

Section LegendFacts.
Import Assignment.
Context {Region Parcellation V : Type} `{Countable Region}.
Variable zero : V.
Variable name : Region -> string.
Variable decoded : Parcellation -> profile_obj V -> list (V * Region).

Lemma decodes_total (profiles : list positive) (parc : Parcellation)
    (h : gmap positive (profile_obj V)) :
  Forall (fun l => is_Some (h !! l)) profiles ->
  hcomprehension (fun p => decode decoded p parc) profiles h
  = (Ok (map (fun l => match h !! l with
                       | Some o => decoded parc o
                       | None => []
                       end) profiles), h).
Proof.
  intros Hh. apply hcomprehension_total. intros l Hl.
  destruct (proj1 (Forall_forall _ _) Hh l Hl) as [o Ho].
  unfold decode, hbind, deref, hret. by rewrite Ho.
Qed.

Lemma src_names_total (profiles : list positive)
    (h : gmap positive (profile_obj V)) :
  Forall (fun l => is_Some (h !! l)) profiles ->
  hcomprehension get_src_name profiles h
  = (Ok (map (fun l => match h !! l with
                       | Some o => src_name o
                       | None => ""
                       end) profiles), h).
Proof.
  intros Hh. apply hcomprehension_total. intros l Hl.
  destruct (proj1 (Forall_forall _ _) Hh l Hl) as [o Ho].
  unfold get_src_name, hbind, deref, hret. by rewrite Ho.
Qed.

Lemma cell_decode_total (l0 : positive) (profiles : list positive)
    (parc : Parcellation) (h : gmap positive (profile_obj V)) :
  profiles !! 0 = Some l0 ->
  Forall (fun l => is_Some (h !! l)) profiles ->
  cell_decode decoded profiles parc h
  = (Ok (map (fun l => match h !! l with
                       | Some o => decoded parc o
                       | None => []
                       end) profiles,
         map snd (take 20 (match h !! l0 with
                           | Some o => decoded parc o
                           | None => []
                           end))), h).
Proof.
  intros Hl0 Hh. unfold cell_decode, hbind at 1.
  rewrite decodes_total by done.
  unfold hbind, hlift, list_getitem. by rewrite list_lookup_fmap, Hl0.
Qed.

Lemma cell_plot_total (profiles : list positive)
    (ds : list (list (V * Region))) (targets : list Region)
    (h : gmap positive (profile_obj V)) :
  Forall (fun l => is_Some (h !! l)) profiles ->
  exists fig,
    plot_connectivity_profiles zero name ds targets = Ok fig
    /\ cell_plot zero name profiles ds targets h
       = (Ok (fig, map (fun l => match h !! l with
                                 | Some o => src_name o
                                 | None => ""
                                 end) profiles), h).
Proof.
  intros Hh. eexists. split; [apply plot_connectivity_profiles_total|].
  unfold cell_plot, hbind at 1, hlift.
  rewrite plot_connectivity_profiles_total.
  unfold hbind. by rewrite src_names_total.
Qed.

(** X9: Cells 6 and 8 together: without any profile they end in the
    [IndexError] of [decoded_profiles[0]], before anything is drawn; with
    profiles they draw one line per profile and the legend names the
    [src_name] of each profile, line [i] and legend entry [i] belonging to
    profile [i]; every line has one value per x tick; the profile objects
    are left as they were. *)
Theorem legend_matches_lines (profiles : list positive) (parc : Parcellation)
    (h : gmap positive (profile_obj V)) :
  Forall (fun l => is_Some (h !! l)) profiles ->
  (profiles = [] ->
   cells_profiles zero name decoded profiles parc h = (Raise IndexError, h))
  /\ (profiles <> [] ->
      exists fig legend,
        cells_profiles zero name decoded profiles parc h = (Ok (fig, legend), h)
        /\ length (fig_lines fig) = length profiles
        /\ length legend = length profiles
        /\ forall i l o, profiles !! i = Some l -> h !! l = Some o ->
            legend !! i = Some (src_name o)
            /\ exists ln,
                fig_lines fig !! i = Some ln
                /\ line_x ln = fig_xticks fig
                /\ length (line_y ln) = length (fig_xticks fig)
                /\ Forall (fun v => v = zero \/ v ∈ (decoded parc o).*1) (line_y ln)).
Proof.
  intros Hh. split; [by intros ->|]. intros Hne.
  assert (exists l0, profiles !! 0 = Some l0) as [l0 Hl0].
  { destruct profiles as [|l0 profiles]; [done|]. by exists l0. }
  destruct (cell_plot_total profiles
              (map (fun l => match h !! l with
                             | Some o => decoded parc o
                             | None => []
                             end) profiles)
              (map snd (take 20 (match h !! l0 with
                                 | Some o => decoded parc o
                                 | None => []
                                 end))) h Hh) as (fig & Hfig & Hplot).
  exists fig. eexists. split.
  { unfold cells_profiles, hbind. rewrite (cell_decode_total l0) by done.
    exact Hplot. }
  rewrite plot_connectivity_profiles_total in Hfig. injection Hfig as <-.
  unfold fig_lines, fig_xticks.
  split; [by rewrite !length_map|]. split; [by rewrite length_map|].
  intros i l o Hl Ho. split.
  { rewrite list_lookup_fmap, Hl. simpl. by rewrite Ho. }
  eexists. split.
  { rewrite !list_lookup_fmap, Hl. simpl. rewrite Ho. reflexivity. }
  unfold line_x, line_y.
  split; [done|]. split; [by rewrite length_map, length_seq|].
  apply Forall_forall. intros v Hv.
  apply list_elem_of_fmap in Hv as (r & -> & _).
  destruct (dict_of_profile (decoded parc o) !! r) as [s|] eqn:E; simpl; [right|by left].
  by apply dict_of_profile_values in E.
Qed.

End LegendFacts.

(** Two stored profiles, decoded by pairing strengths with column names. *)
Lemma legend_matches_lines_two :
  let h : gmap positive (Assignment.profile_obj Z) :=
    <[1%positive := Assignment.ProfileObj "study one" "" ["A"; "B"] [3%Z; 1%Z]]>
      (<[2%positive := Assignment.ProfileObj "study two" "" ["B"] [7%Z]]> ∅) in
  let decoded := fun (_ : unit) (o : Assignment.profile_obj Z) =>
    zip (Assignment.entries o) (Assignment.column_names o) in
  Forall (fun l => is_Some (h !! l)) [1%positive; 2%positive]
  /\ [1%positive; 2%positive] <> []
  /\ exists fig legend,
      Assignment.cells_profiles 0%Z (fun r : string => r) decoded
        [1%positive; 2%positive] tt h = (Ok (fig, legend), h)
      /\ length (Assignment.fig_lines fig) = 2
      /\ legend = ["study one"; "study two"].
Proof.
  intros h decoded.
  assert (Forall (fun l => is_Some (h !! l)) [1%positive; 2%positive]) as Hh.
  { repeat constructor; by eexists. }
  split; [exact Hh|]. split; [discriminate|].
  destruct (legend_matches_lines 0%Z (fun r : string => r) decoded
              [1%positive; 2%positive] tt h Hh) as [_ Hsome].
  destruct Hsome as (fig & legend & Hrun & Hlines & Hlen & Hat); [discriminate|].
  exists fig, legend. split; [exact Hrun|]. split; [exact Hlines|].
  destruct legend as [|a [|b [|c legend]]]; try discriminate.
  destruct (Hat 0 1%positive _ eq_refl eq_refl) as [[= ->] _].
  destruct (Hat 1 2%positive _ eq_refl eq_refl) as [[= ->] _].
  reflexivity.
Defined.

(** ** Features after the fourth *)

Section FirstFour.
Import Walkthrough.
Context {V : Type}.
Variable wrap : string -> nat -> list string.

Lemma panel_axes_enumerate (h : gmap positive (matrix_obj V)) (l : list positive) :
  map panel_axes (map (panel_of wrap h) (enumerate l)) = seq 0 (length l).
Proof.
  unfold enumerate. rewrite map_map.
  apply list_eq. intros i.
  rewrite list_lookup_fmap, list_lookup_imap.
  destruct (l !! i) as [x|] eqn:E; simpl.
  - rewrite lookup_seq_lt by (by eapply lookup_lt_Some).
    unfold panel_of. simpl. by destruct (h !! x).
  - symmetry. apply lookup_seq_ge. by apply lookup_ge_None.
Qed.

(** X10: The cell reads the first four features only: given four or more
    features of which the first four are stored, it draws four panels, on
    the axes 0 to 3 in this order, whatever follows the fourth feature;
    the outcome is that of the cell run on the first four alone. *)
Theorem cell_matrices_first_four (found : list positive)
    (h : gmap positive (matrix_obj V)) :
  Forall (fun l => is_Some (h !! l)) (take 4 found) ->
  4 <= length found ->
  cell_matrices wrap found h = cell_matrices wrap (take 4 found) h
  /\ exists panels,
      cell_matrices wrap found h = (Ok panels, h)
      /\ map panel_axes panels = [0; 1; 2; 3].
Proof.
  intros Hh Hlen.
  assert (cell_matrices wrap found h = cell_matrices wrap (take 4 found) h) as Hsame.
  { unfold cell_matrices. by rewrite take_take, Nat.min_id. }
  split; [exact Hsame|].
  assert (length (take 4 found) = 4) as Hfour by (rewrite length_take; lia).
  eexists. split.
  - rewrite Hsame. apply cell_matrices_array; [exact Hh|lia].
  - rewrite panel_axes_enumerate, take_take, Nat.min_id, Hfour. done.
Qed.

End FirstFour.

(** Five features found, the fifth of which is not stored. *)
Lemma cell_matrices_first_four_of_five :
  let h : gmap positive (Walkthrough.matrix_obj Z) :=
    <[1%positive := Walkthrough.MatrixObj [[1%Z]] "a" ""]>
      (<[2%positive := Walkthrough.MatrixObj [[2%Z]] "b" ""]>
         (<[3%positive := Walkthrough.MatrixObj [[3%Z]] "c" ""]>
            (<[4%positive := Walkthrough.MatrixObj [[4%Z]] "d" ""]> ∅))) in
  Forall (fun l => is_Some (h !! l))
    (take 4 [1%positive; 2%positive; 3%positive; 4%positive; 5%positive])
  /\ 4 <= length [1%positive; 2%positive; 3%positive; 4%positive; 5%positive]
  /\ h !! 5%positive = None
  /\ exists panels,
      Walkthrough.cell_matrices (fun s _ => [s])
        [1%positive; 2%positive; 3%positive; 4%positive; 5%positive] h
      = (Ok panels, h)
      /\ map Walkthrough.panel_axes panels = [0; 1; 2; 3].
Proof.
  intros h.
  assert (Forall (fun l => is_Some (h !! l))
            (take 4 [1%positive; 2%positive; 3%positive; 4%positive; 5%positive]))
    as Hh.
  { repeat constructor; by eexists. }
  split; [exact Hh|]. split; [simpl; lia|]. split; [reflexivity|].
  exact (proj2 (cell_matrices_first_four (fun s _ => [s])
                  [1%positive; 2%positive; 3%positive; 4%positive; 5%positive] h Hh
                  ltac:(simpl; lia))).
Defined.

(** ** Adding profiles to a plot *)

Section PlotMore.
Import Assignment.
Context {Region : Type} `{Countable Region} {V : Type}.
Variable zero : V.
Variable name : Region -> string.

(** X11: Plotting further profiles adds their lines after the lines already
    there and changes neither those lines nor the ticks and their labels:
    the line of a profile does not depend on the other profiles. *)
Theorem plot_connectivity_profiles_more
    (profiles more : list (list (V * Region))) (targets : list Region) :
  exists fig fig' both,
    plot_connectivity_profiles zero name profiles targets = Ok fig
    /\ plot_connectivity_profiles zero name more targets = Ok fig'
    /\ plot_connectivity_profiles zero name (profiles ++ more) targets = Ok both
    /\ fig_lines both = fig_lines fig ++ fig_lines fig'
    /\ fig_xticks both = fig_xticks fig
    /\ fig_xticklabels both = fig_xticklabels fig
    /\ length (fig_xticklabels both) = length (fig_xticks both).
Proof.
  eexists _, _, _. rewrite !plot_connectivity_profiles_total.
  split; [reflexivity|]. split; [reflexivity|]. split; [reflexivity|]. simpl.
  split; [apply map_app|]. split; [done|]. split; [done|].
  by rewrite length_map, length_seq.
Qed.

End PlotMore.
